(** * conda_kapsel.env_spec: environment specifications

    A shallow embedding of [src/conda_kapsel/env_spec.py]: the [EnvSpec]
    class (inheritance merge, content hash, textual diff, serialisation),
    the [environment.yml] loader and the out-of-sync checker, followed by
    the properties of the specification that were checked against them.

    Conventions of the embedding.
    - A Python [str] is a Rocq [string] holding the UTF-8 code units of the
      text, so [s.encode("utf-8")] is the list of bytes of the string and
      equality of texts is equality of strings.
    - A Python object of dynamic type (a parsed YAML document, the value
      stored under [name]) is a [pyval].
    - A list or a tuple of strings is a [pyseq]: the two kinds are kept
      apart because [+] only concatenates sequences of the same kind.
    - A call that can raise returns a [result]: [Ok v] or [Raise e]. *)

From Stdlib Require Import List String Ascii ZArith Bool Lia Permutation.
From Stdlib.Strings Require Import Byte.
From Stdlib Require Import ListSet.
Import ListNotations.
Open Scope string_scope.
Open Scope list_scope.

Set Warnings "-register-all".
Set Warnings "-automation".

(** ** Exceptions and results *)

(** The exception classes the module can meet.  [IOError] stands for the
    whole [OSError] family (missing file, permission, is-a-directory) and
    [YAMLError] for [conda_kapsel.yaml_file._YAMLError] and its
    subclasses; the others are the built-in classes of the same name. *)
Inductive exn : Type :=
| IOError
| YAMLError
| UnicodeDecodeError
| ValueError
| TypeError
| AttributeError
| KeyError
| AssertionError.

Inductive result (A : Type) : Type :=
| Ok (a : A)
| Raise (e : exn).

Arguments Ok {A} a.
Arguments Raise {A} e.

Definition bind {A B : Type} (m : result A) (k : A -> result B) : result B :=
  match m with
  | Ok a => k a
  | Raise e => Raise e
  end.

Notation "x <- m ;; k" := (bind m (fun x => k))
  (at level 61, m at next level, right associativity).

(** ** Dynamically typed values *)

(** An object as the YAML parser builds it: null, a boolean, an integer,
    a string, a sequence, or a mapping with string keys (as an association
    list, in the order of the document).  The loader looks up string keys
    only, and treats every scalar that is not a string alike, so other
    scalars (floats, dates) and other keys are left out. *)
Inductive pyval : Type :=
| PNone
| PBool (b : bool)
| PInt (z : Z)
| PStr (s : string)
| PList (l : list pyval)
| PDict (d : list (string * pyval)).

(** Truth value of an object ([bool(x)], [if x], [not x]). *)
Definition truthy (v : pyval) : bool :=
  match v with
  | PNone => false
  | PBool b => b
  | PInt z => negb (Z.eqb z 0)
  | PStr s => negb (String.eqb s "")
  | PList l => match l with [] => false | _ => true end
  | PDict d => match d with [] => false | _ => true end
  end.

Fixpoint dict_lookup (k : string) (d : list (string * pyval)) : option pyval :=
  match d with
  | [] => None
  | (k', v) :: d' => if String.eqb k k' then Some v else dict_lookup k d'
  end.

Fixpoint dict_remove (k : string) (d : list (string * pyval)) : list (string * pyval) :=
  match d with
  | [] => []
  | (k', v) :: d' =>
      if String.eqb k k' then dict_remove k d' else (k', v) :: dict_remove k d'
  end.

(** [d[k] = v]: replace the binding of [k], or add one at the end. *)
Fixpoint dict_setitem (k : string) (v : pyval) (d : list (string * pyval))
  : list (string * pyval) :=
  match d with
  | [] => [(k, v)]
  | (k', v') :: d' =>
      if String.eqb k k' then (k, v) :: d' else (k', v') :: dict_setitem k v d'
  end.

(** [a == b].  Booleans compare as the integers 0 and 1; sequences compare
    element by element; mappings compare as sets of bindings. *)
Fixpoint py_eqb (a b : pyval) {struct a} : bool :=
  match a, b with
  | PNone, PNone => true
  | PBool x, PBool y => Bool.eqb x y
  | PBool x, PInt y => Z.eqb (if x then 1 else 0) y
  | PInt x, PBool y => Z.eqb x (if y then 1 else 0)
  | PInt x, PInt y => Z.eqb x y
  | PStr x, PStr y => String.eqb x y
  | PList xs, PList ys =>
      (fix go (xs ys : list pyval) {struct xs} : bool :=
         match xs, ys with
         | [], [] => true
         | x :: xs', y :: ys' => py_eqb x y && go xs' ys'
         | _, _ => false
         end) xs ys
  | PDict xs, PDict ys =>
      Nat.eqb (List.length xs) (List.length ys) &&
      (fix go (xs : list (string * pyval)) {struct xs} : bool :=
         match xs with
         | [] => true
         | (k, v) :: xs' =>
             match dict_lookup k ys with
             | Some w => py_eqb v w
             | None => false
             end && go xs'
         end) xs
  | _, _ => false
  end.

Definition is_none (v : pyval) : bool :=
  match v with PNone => true | _ => false end.

(** [conda_kapsel.internal.py2_compat.is_string] *)
Definition is_string (v : pyval) : bool :=
  match v with PStr _ => true | _ => false end.

(** ** Strings *)

(** [sub in s] for two strings. *)
Fixpoint str_contains (sub s : string) : bool :=
  String.prefix sub s ||
  match s with
  | EmptyString => false
  | String _ s' => str_contains sub s'
  end.

(** [sep.join(lines)] *)
Fixpoint join (sep : string) (lines : list string) : string :=
  match lines with
  | [] => ""
  | [l] => l
  | l :: rest => String.append l (String.append sep (join sep rest))
  end.

Definition newline : string := String (Ascii.ascii_of_nat 10) EmptyString.

(** [os.path.basename] of [posixpath]: what follows the last slash. *)
Fixpoint basename (p : string) : string :=
  match p with
  | EmptyString => EmptyString
  | String c r =>
      if str_contains "/" r then basename r
      else if Ascii.eqb c "/" then r
      else p
  end.

(** [s.encode("utf-8")] *)
Definition encode_utf8 (s : string) : list byte := list_byte_of_string s.

(** ** Operations on objects of dynamic type *)

(** [key in y] *)
Definition py_contains (key : string) (y : pyval) : result bool :=
  match y with
  | PDict d => Ok (match dict_lookup key d with Some _ => true | None => false end)
  | PList l => Ok (existsb (py_eqb (PStr key)) l)
  | PStr s => Ok (str_contains key s)
  | _ => Raise TypeError
  end.

(** [y[key]] for a string [key] *)
Definition py_getitem (y : pyval) (key : string) : result pyval :=
  match y with
  | PDict d => match dict_lookup key d with Some v => Ok v | None => Raise KeyError end
  | _ => Raise TypeError
  end.

(** [y.get(key, default)] *)
Definition py_get (y : pyval) (key : string) (default : pyval) : result pyval :=
  match y with
  | PDict d => Ok (match dict_lookup key d with Some v => v | None => default end)
  | _ => Raise AttributeError
  end.

(** [os.path.basename(v)] on an object: only a string has a base name. *)
Definition os_path_basename (v : pyval) : result pyval :=
  match v with
  | PStr p => Ok (PStr (basename p))
  | _ => Raise TypeError
  end.

(** ** hashlib.sha1 *)

Module hashlib.

Local Open Scope Z_scope.

Definition w32 (x : Z) : Z := Z.land x 4294967295.

Definition rotl (n x : Z) : Z :=
  w32 (Z.lor (Z.shiftl x n) (Z.shiftr x (32 - n))).

Definition byte_to_Z (b : byte) : Z := Z.of_N (Byte.to_N b).

(** Big-endian bytes of [x], [n] of them. *)
Fixpoint be_bytes (n : nat) (x : Z) : list Z :=
  match n with
  | O => []
  | S n' => Z.land (Z.shiftr x (8 * Z.of_nat n')) 255 :: be_bytes n' x
  end.

(** The message followed by 0x80, zeros up to 56 modulo 64, and the
    length in bits on eight bytes. *)
Definition pad (msg : list Z) : list Z :=
  let len := Z.of_nat (List.length msg) in
  let zeros := Z.to_nat ((55 - len) mod 64) in
  msg ++ 128 :: repeat 0 zeros ++ be_bytes 8%nat (8 * len).

Fixpoint words (fuel : nat) (bs : list Z) : list Z :=
  match fuel, bs with
  | S fuel', b0 :: b1 :: b2 :: b3 :: rest =>
      (Z.shiftl b0 24 + Z.shiftl b1 16 + Z.shiftl b2 8 + b3) :: words fuel' rest
  | _, _ => []
  end.

(** The message schedule: [rev_w] holds the words computed so far, the
    latest first. *)
Fixpoint schedule (n : nat) (rev_w : list Z) : list Z :=
  match n with
  | O => rev rev_w
  | S n' =>
      let w := rotl 1 (Z.lxor (Z.lxor (nth 2%nat rev_w 0) (nth 7%nat rev_w 0))
                              (Z.lxor (nth 13%nat rev_w 0) (nth 15%nat rev_w 0))) in
      schedule n' (w :: rev_w)
  end.

Definition state : Type := (Z * Z * Z * Z * Z)%type.

Definition round (t : nat) (st : state) (w : Z) : state :=
  let '(a, b, c, d, e) := st in
  let '(f, k) :=
    if Nat.ltb t 20%nat then (Z.lor (Z.land b c) (Z.land (Z.lxor b 4294967295) d), 1518500249)
    else if Nat.ltb t 40%nat then (Z.lxor (Z.lxor b c) d, 1859775393)
    else if Nat.ltb t 60%nat then
      (Z.lor (Z.lor (Z.land b c) (Z.land b d)) (Z.land c d), 2400959708)
    else (Z.lxor (Z.lxor b c) d, 3395469782) in
  (w32 (rotl 5 a + f + e + k + w), a, rotl 30 b, c, d).

Fixpoint rounds (t : nat) (ws : list Z) (st : state) : state :=
  match ws with
  | [] => st
  | w :: ws' => rounds (S t) ws' (round t st w)
  end.

Definition compress (st : state) (block : list Z) : state :=
  let ws := schedule 64%nat (rev (words 16%nat block)) in
  let '(a, b, c, d, e) := rounds 0%nat ws st in
  let '(h0, h1, h2, h3, h4) := st in
  (w32 (h0 + a), w32 (h1 + b), w32 (h2 + c), w32 (h3 + d), w32 (h4 + e)).

Fixpoint blocks (fuel : nat) (bs : list Z) (st : state) : state :=
  match fuel with
  | O => st
  | S fuel' =>
      match bs with
      | [] => st
      | _ => blocks fuel' (skipn 64%nat bs) (compress st (firstn 64%nat bs))
      end
  end.

Definition initial : state :=
  (1732584193, 4023233417, 2562383102, 271733878, 3285377520).

(** The SHA-1 digest of a message, as twenty bytes. *)
Definition sha1_digest (msg : list byte) : list Z :=
  let bs := pad (map byte_to_Z msg) in
  let '(h0, h1, h2, h3, h4) := blocks (S (Nat.div (List.length bs) 64%nat)) bs initial in
  be_bytes 4%nat h0 ++ be_bytes 4%nat h1 ++ be_bytes 4%nat h2 ++ be_bytes 4%nat h3
  ++ be_bytes 4%nat h4.

Definition hex_digit (x : Z) : ascii :=
  if Z.ltb x 10 then Ascii.ascii_of_N (Z.to_N (48 + x))
  else Ascii.ascii_of_N (Z.to_N (87 + x)).

Fixpoint hex (bs : list Z) : string :=
  match bs with
  | [] => EmptyString
  | b :: bs' => String (hex_digit (Z.shiftr b 4)) (String (hex_digit (Z.land b 15)) (hex bs'))
  end.

(** A hash object is the message it has been fed so far:
    [m.update(a); m.update(b)] is [m.update(a + b)]. *)
Record sha1_object : Type := { fed : list byte }.

Definition sha1 : sha1_object := {| fed := [] |}.

Definition update (m : sha1_object) (data : list byte) : sha1_object :=
  {| fed := fed m ++ data |}.

Definition hexdigest (m : sha1_object) : string := hex (sha1_digest (fed m)).

End hashlib.

Example sha1_empty :
  hashlib.hexdigest hashlib.sha1 = "da39a3ee5e6b4b0d3255bfef95601890afd80709".
Proof. vm_compute. reflexivity. Qed.

Example sha1_abc :
  hashlib.hexdigest (hashlib.update hashlib.sha1 (encode_utf8 "abc"))
  = "a9993e364706816aba3e25717850c26c9cd0d89d".
Proof. vm_compute. reflexivity. Qed.

Example sha1_two_blocks :
  hashlib.hexdigest (hashlib.update hashlib.sha1
    (encode_utf8 "abcdbcdecdefdefgefghfghighijhijkijkljklmklmnlmnomnopnopq"))
  = "84983e441c3bd26ebaae4aa1f95129e5e54670f1".
Proof. vm_compute. reflexivity. Qed.

(** ** Lists and tuples *)

Inductive pyseq (A : Type) : Type :=
| PyList (l : list A)
| PyTuple (l : list A).

Arguments PyList {A} l.
Arguments PyTuple {A} l.

Definition items {A : Type} (s : pyseq A) : list A :=
  match s with
  | PyList l => l
  | PyTuple l => l
  end.

(** [tuple(s)] and [list(s)] *)
Definition tuple {A : Type} (s : pyseq A) : pyseq A := PyTuple (items s).
Definition list_of {A : Type} (s : pyseq A) : pyseq A := PyList (items s).

(** [a + b]: defined on two lists and on two tuples; a list and a tuple
    raise [TypeError] (can only concatenate list (not "tuple") to list). *)
Definition seq_add {A : Type} (a b : pyseq A) : result (pyseq A) :=
  match a, b with
  | PyList x, PyList y => Ok (PyList (x ++ y))
  | PyTuple x, PyTuple y => Ok (PyTuple (x ++ y))
  | _, _ => Raise TypeError
  end.

(** ** _combine_keeping_last_duplicate *)

Definition default_key {A : Type} (item : A) : A := item.

Section combine.

Context {A K : Type}.
Variable key_eqb : K -> K -> bool.

(** Membership in the set [items2_keys]. *)
Definition key_in (k : K) (keys : list K) : bool := existsb (key_eqb k) keys.

(** [key_func] is the function the caller gave, or [default_key] when it
    gave none. *)
Definition _combine_keeping_last_duplicate
    (key_func : A -> K) (items1 items2 : pyseq A) : result (pyseq A) :=
  let items2_keys := map key_func (items items2) in
  let combined :=
    PyList (filter (fun item => negb (key_in (key_func item) items2_keys)) (items items1)) in
  combined <- seq_add combined items2 ;;
  Ok (tuple combined).

End combine.

(** ** EnvSpec *)

(** The three sequences are the items of the tuples [__init__] stores. *)
Inductive EnvSpec : Type := Build_EnvSpec {
  _name : pyval;
  _conda_packages : list string;
  _channels : list string;
  _pip_packages : list string;
  _description : pyval;
  _channels_and_packages_hash : option string;
  _inherit_from_name : pyval;
  _inherit_from : option EnvSpec
}.

(** [EnvSpec.__init__]: the fields are stored, the three sequences as
    tuples, the hash cache starts empty, and the assertion on the
    inheritance link is checked last. *)
Definition __init__
    (name : pyval) (conda_packages channels pip_packages : pyseq string)
    (description inherit_from_name : pyval) (inherit_from : option EnvSpec)
  : result EnvSpec :=
  let self :=
    {| _name := name;
       _conda_packages := items (tuple conda_packages);
       _channels := items (tuple channels);
       _pip_packages := items (tuple pip_packages);
       _description := description;
       _channels_and_packages_hash := None;
       _inherit_from_name := inherit_from_name;
       _inherit_from := inherit_from |} in
  let assertion :=
    match _inherit_from self with
    | None => true
    | Some parent =>
        negb (is_none (_inherit_from_name self))
        && py_eqb (_inherit_from_name self) (_name parent)
    end in
  if assertion then Ok self else Raise AssertionError.

Definition name (self : EnvSpec) : pyval := _name self.

Definition description (self : EnvSpec) : pyval :=
  if is_none (_description self) then _name self else _description self.

Definition inherit_from (self : EnvSpec) : option EnvSpec := _inherit_from self.

Definition inherit_from_name (self : EnvSpec) : pyval := _inherit_from_name self.

(** The three attributes [_get_inherited] is called with. *)
Inductive public_attr : Type :=
| attr_conda_packages
| attr_channels
| attr_pip_packages.

(** [getattr(self, '_' + public_attr)]: the tuple stored by [__init__]. *)
Definition private_attr (a : public_attr) (self : EnvSpec) : pyseq string :=
  match a with
  | attr_conda_packages => PyTuple (_conda_packages self)
  | attr_channels => PyTuple (_channels self)
  | attr_pip_packages => PyTuple (_pip_packages self)
  end.

(** [getattr(self._inherit_from, public_attr)] is the parent's property,
    which is [_get_inherited] again on the parent. *)
Fixpoint _get_inherited (a : public_attr) (self : EnvSpec) {struct self}
  : result (pyseq string) :=
  match self with
  | Build_EnvSpec _ _ _ _ _ _ _ (Some parent) =>
      inherited <- _get_inherited a parent ;;
      _combine_keeping_last_duplicate String.eqb default_key
        inherited (private_attr a self)
  | Build_EnvSpec _ _ _ _ _ _ _ None => Ok (private_attr a self)
  end.

Definition conda_packages (self : EnvSpec) : result (pyseq string) :=
  _get_inherited attr_conda_packages self.

Definition channels (self : EnvSpec) : result (pyseq string) :=
  _get_inherited attr_channels self.

Definition pip_packages (self : EnvSpec) : result (pyseq string) :=
  _get_inherited attr_pip_packages self.

(** One loop of [channels_and_packages_hash]. *)
Definition feed (m : hashlib.sha1_object) (packages : pyseq string) : hashlib.sha1_object :=
  fold_left (fun m p => hashlib.update m (encode_utf8 p)) (items packages) m.

(** The body run when the cache is empty. *)
Definition fresh_hash (self : EnvSpec) : result string :=
  let m := hashlib.sha1 in
  conda <- conda_packages self ;;
  let m := feed m conda in
  pip <- pip_packages self ;;
  let m := feed m pip in
  chans <- channels self ;;
  let m := feed m chans in
  Ok (hashlib.hexdigest m).

Definition set_hash_cache (self : EnvSpec) (h : option string) : EnvSpec :=
  {| _name := _name self;
     _conda_packages := _conda_packages self;
     _channels := _channels self;
     _pip_packages := _pip_packages self;
     _description := _description self;
     _channels_and_packages_hash := h;
     _inherit_from_name := _inherit_from_name self;
     _inherit_from := _inherit_from self |}.

(** The property returns the hash and leaves the object with its cache
    filled: the pair is the value returned and the object after the call. *)
Definition channels_and_packages_hash (self : EnvSpec) : result (string * EnvSpec) :=
  match _channels_and_packages_hash self with
  | None =>
      h <- fresh_hash self ;;
      Ok (h, set_hash_cache self (Some h))
  | Some h => Ok (h, self)
  end.

(** [EnvSpec.to_json].  The result is a mapping, built with the keys
    [packages] and [channels] and extended with [inherit_from]. *)
Definition to_json (self : EnvSpec) : result pyval :=
  conda <- conda_packages self ;;
  let packages := map PStr (items (list_of conda)) in
  pip <- pip_packages self ;;
  let pip_packages := map PStr (items (list_of pip)) in
  let packages :=
    match pip_packages with
    | [] => packages
    | _ => packages ++ [PDict [("pip", PList pip_packages)]]
    end in
  chans <- channels self ;;
  let channels := map PStr (items (list_of chans)) in
  let result := [("packages", PList packages); ("channels", PList channels)] in
  let result :=
    if negb (is_none (inherit_from_name self))
    then dict_setitem "inherit_from" (inherit_from_name self) result
    else result in
  Ok (PDict result).

(** ** diff_from *)

Section diff.

(** [difflib.ndiff] of the Python library, on the items of two
    sequences of lines. *)
Variable ndiff : list string -> list string -> list string.

Definition diff_from (self old : EnvSpec) : result string :=
  old_channels <- channels old ;;
  self_channels <- channels self ;;
  let channels_diff := ndiff (items old_channels) (items self_channels) in
  old_conda <- conda_packages old ;;
  self_conda <- conda_packages self ;;
  let conda_diff := ndiff (items old_conda) (items self_conda) in
  old_pip <- pip_packages old ;;
  self_pip <- pip_packages self ;;
  let pip_diff := ndiff (items old_pip) (items self_pip) in
  let pip_diff :=
    match pip_diff with
    | [] => pip_diff
    | _ => "  pip:" :: map (String.append "    ") pip_diff
    end in
  let channels_diff :=
    match channels_diff with
    | [] => channels_diff
    | _ => "  channels:" :: map (String.append "    ") channels_diff
    end in
  Ok (join newline (channels_diff ++ conda_diff ++ pip_diff)).

End diff.

(** What [diff_from] relies on of [ndiff], as the library documents it: a
    line common to both sequences comes out with the two-blank marker, and
    a sequence compared with itself has only common lines. *)
Definition ndiff_marks_common (ndiff : list string -> list string -> list string) : Prop :=
  forall a, ndiff a a = map (String.append "  ") a.

(** A line diff that meets [ndiff_marks_common]: it keeps a longest common
    subsequence as common lines and marks the other lines [- ] and [+ ]. *)
Definition common_lines (d : list string) : nat :=
  List.length (filter (fun l => String.prefix "  " l) d).

Fixpoint lcs_ndiff (a b : list string) {struct a} : list string :=
  match a with
  | [] => map (String.append "+ ") b
  | x :: a' =>
      (fix inner (b : list string) {struct b} : list string :=
         match b with
         | [] => map (String.append "- ") a
         | y :: b' =>
             if String.eqb x y then String.append "  " x :: lcs_ndiff a' b'
             else
               let d1 := String.append "- " x :: lcs_ndiff a' b in
               let d2 := String.append "+ " y :: inner b' in
               if Nat.leb (common_lines d2) (common_lines d1) then d1 else d2
         end) b
  end.

(** ** The environment.yml loader and the out-of-sync check *)

(** Lines 188 to 196 of the loader: the name of the loaded spec. *)
Definition _load_name (yaml : pyval) (filename : string) : result pyval :=
  let name := PNone in
  has_name <- py_contains "name" yaml ;;
  name <- (if has_name : bool then py_getitem yaml "name" else Ok name) ;;
  name <-
    (if negb (truthy name) then
       has_prefix <- py_contains "prefix" yaml ;;
       prefix_set <-
         (if has_prefix : bool
          then prefix <- py_getitem yaml "prefix" ;; Ok (truthy prefix)
          else Ok false) ;;
       if prefix_set : bool
       then prefix <- py_getitem yaml "prefix" ;; os_path_basename prefix
       else Ok name
     else Ok name) ;;
  let name := if negb (truthy name) then PStr (basename filename) else name in
  Ok name.

(** [yaml.get(key, [])], replaced by [[]] when it is not a list. *)
Definition _load_list (yaml : pyval) (key : string) : result (list pyval) :=
  raw <- py_get yaml key (PList []) ;;
  Ok (match raw with PList l => l | _ => [] end).

(** The body of the loop over [dep['pip']]. *)
Definition _load_pip_dep (pip_packages : list string) (pip_dep : pyval) : list string :=
  match pip_dep with
  | PStr s => pip_packages ++ [s]
  | _ => pip_packages
  end.

(** The body of the loop over [raw_dependencies]; the state is the pair
    [(conda_packages, pip_packages)]. *)
Definition _load_dep (acc : list string * list string) (dep : pyval)
  : list string * list string :=
  let (conda_packages, pip_packages) := acc in
  match dep with
  | PStr s => (conda_packages ++ [s], pip_packages)
  | PDict d =>
      match dict_lookup "pip" d with
      | Some (PList pips) => (conda_packages, fold_left _load_pip_dep pips pip_packages)
      | _ => acc
      end
  | _ => acc
  end.

(** The body of the loop over [raw_channels]. *)
Definition _load_channel (channels : list string) (channel : pyval) : list string :=
  match channel with
  | PStr s => channels ++ [s]
  | _ => channels
  end.

(** Lines 188 to 229: from the parsed document to the [EnvSpec]. *)
Definition _load_parsed (yaml : pyval) (filename : string) : result EnvSpec :=
  name <- _load_name yaml filename ;;
  raw_dependencies <- _load_list yaml "dependencies" ;;
  raw_channels <- _load_list yaml "channels" ;;
  let (conda_packages, pip_packages) := fold_left _load_dep raw_dependencies ([], []) in
  let channels := fold_left _load_channel raw_channels [] in
  __init__ name (PyList conda_packages) (PyList channels) (PyList pip_packages)
    PNone PNone None.

(** The loop over [project_specs].  The result is the value returned
    ([None], or [Some] of the loaded spec) and the specs of the project
    after the loop, whose hash caches the loop can fill. *)
Fixpoint _scan_project_specs (project_specs : list EnvSpec) (spec : EnvSpec)
  : result (option EnvSpec * list EnvSpec) :=
  match project_specs with
  | [] => Ok (Some spec, [])
  | existing :: rest =>
      if py_eqb (name existing) (name spec) then
        existing_hash <- channels_and_packages_hash existing ;;
        let (existing_hash, existing) := existing_hash : string * EnvSpec in
        spec_hash <- channels_and_packages_hash spec ;;
        let (spec_hash, spec) := spec_hash : string * EnvSpec in
        if String.eqb existing_hash spec_hash then Ok (None, existing :: rest)
        else
          found <- _scan_project_specs rest spec ;;
          Ok (fst found, existing :: snd found)
      else
        found <- _scan_project_specs rest spec ;;
        Ok (fst found, existing :: snd found)
  end.

Section loader.

(** [codecs.open(filename, 'r', 'utf-8')] followed by [file.read()]: the
    text of the file, or the exception raised by opening, reading or
    decoding it. *)
Variable codecs_open_read : string -> result string.

(** [conda_kapsel.yaml_file._load_string]: the parsed document, or the
    exception raised by the parser. *)
Variable _load_string : string -> result pyval.

(** [None] is the value "not loaded". *)
Definition _load_environment_yml (filename : string) : result (option EnvSpec) :=
  match (contents <- codecs_open_read filename ;; _load_string contents) with
  | Raise IOError => Ok None
  | Raise YAMLError => Ok None
  | Raise e => Raise e
  | Ok yaml =>
      spec <- _load_parsed yaml filename ;;
      Ok (Some spec)
  end.

Definition _find_out_of_sync_environment_yml_spec
    (project_specs : list EnvSpec) (filename : string)
  : result (option EnvSpec * list EnvSpec) :=
  spec <- _load_environment_yml filename ;;
  match spec with
  | None => Ok (None, project_specs)
  | Some spec => _scan_project_specs project_specs spec
  end.

End loader.

(** * Properties *)

(** ** Results *)

Lemma bind_Ok {A B : Type} (m : result A) (k : A -> result B) (b : B) :
  bind m k = Ok b -> exists a, m = Ok a /\ k a = Ok b.
Proof.
  destruct m as [a | e]; simpl; intros H.
  - exists a. split; [reflexivity | exact H].
  - discriminate H.
Qed.

(** ** Inheritance: the effective sequences *)

(** Induction along the chain of parents. *)
Fixpoint EnvSpec_parent_ind (P : EnvSpec -> Prop)
    (Hroot : forall s, _inherit_from s = None -> P s)
    (Hchild : forall s parent, _inherit_from s = Some parent -> P parent -> P s)
    (s : EnvSpec) {struct s} : P s :=
  match s as s0 return P s0 with
  | Build_EnvSpec n c ch p d h ifn inh =>
      match inh as i return P (Build_EnvSpec n c ch p d h ifn i) with
      | None => Hroot (Build_EnvSpec n c ch p d h ifn None) eq_refl
      | Some parent =>
          Hchild (Build_EnvSpec n c ch p d h ifn (Some parent)) parent eq_refl
            (EnvSpec_parent_ind P Hroot Hchild parent)
      end
  end.

Lemma key_in_string (k : string) (keys : list string) :
  key_in String.eqb k keys = true <-> In k keys.
Proof.
  unfold key_in. rewrite existsb_exists. split.
  - intros [x [Hin Heq]]. apply String.eqb_eq in Heq. subst x. exact Hin.
  - intros Hin. exists k. split; [exact Hin | apply String.eqb_refl].
Qed.

(** Given a list as second argument the function combines. *)
Lemma _combine_with_list {A K : Type} (key_eqb : K -> K -> bool) (key_func : A -> K)
    (items1 : pyseq A) (l2 : list A) :
  _combine_keeping_last_duplicate key_eqb key_func items1 (PyList l2)
  = Ok (PyTuple
          (filter (fun item => negb (key_in key_eqb (key_func item) (map key_func l2)))
                  (items items1) ++ l2)).
Proof. reflexivity. Qed.

(** Given a tuple as second argument it raises: [combined] is a list and
    [combined + items2] adds a tuple to it. *)
Lemma _combine_with_tuple {A K : Type} (key_eqb : K -> K -> bool) (key_func : A -> K)
    (items1 : pyseq A) (l2 : list A) :
  _combine_keeping_last_duplicate key_eqb key_func items1 (PyTuple l2) = Raise TypeError.
Proof. reflexivity. Qed.

Lemma private_attr_is_tuple (a : public_attr) (s : EnvSpec) :
  exists l, private_attr a s = PyTuple l.
Proof. destruct a; simpl; eexists; reflexivity. Qed.

Lemma _get_inherited_no_parent (a : public_attr) (s : EnvSpec) :
  _inherit_from s = None -> _get_inherited a s = Ok (private_attr a s).
Proof.
  destruct s as [n c ch p d h ifn inh]. simpl. intros ->. reflexivity.
Qed.

Lemma _get_inherited_unfold_parent (a : public_attr) (s parent : EnvSpec) :
  _inherit_from s = Some parent ->
  _get_inherited a s =
    (inherited <- _get_inherited a parent ;;
     _combine_keeping_last_duplicate String.eqb default_key inherited (private_attr a s)).
Proof.
  destruct s as [n c ch p d h ifn inh]. simpl. intros ->. reflexivity.
Qed.

(** A property either returns the spec's own tuple (no parent) or raises
    [TypeError] (a parent, at any depth of the chain). *)
Lemma _get_inherited_outcome (a : public_attr) (s : EnvSpec) :
  _get_inherited a s = Ok (private_attr a s) \/ _get_inherited a s = Raise TypeError.
Proof.
  induction s as [s Hroot | s parent Hparent IH] using EnvSpec_parent_ind.
  - left. apply _get_inherited_no_parent. exact Hroot.
  - right. rewrite (_get_inherited_unfold_parent a s parent Hparent).
    destruct IH as [IH | IH]; rewrite IH; simpl.
    + destruct (private_attr_is_tuple a s) as [l ->]. reflexivity.
    + reflexivity.
Qed.

Lemma _get_inherited_with_parent (a : public_attr) (s parent : EnvSpec) :
  _inherit_from s = Some parent -> _get_inherited a s = Raise TypeError.
Proof.
  intros Hparent. rewrite (_get_inherited_unfold_parent a s parent Hparent).
  destruct (_get_inherited_outcome a parent) as [H | H]; rewrite H; simpl.
  - destruct (private_attr_is_tuple a s) as [l ->]. reflexivity.
  - reflexivity.
Qed.

(** What the function computes when it is given two lists: the entries
    of [items1] whose key is not a key of [items2], in their order, then
    [items2]; an entry of [items2] occurs in the result as often as in
    [items2]. *)
Lemma _combine_with_list_count (items1 : pyseq string) (l2 : list string) (x : string) :
  In x l2 ->
  exists combined,
    _combine_keeping_last_duplicate String.eqb default_key items1 (PyList l2)
      = Ok (PyTuple combined)
    /\ count_occ string_dec combined x = count_occ string_dec l2 x.
Proof.
  intros Hin. rewrite _combine_with_list. eexists. split; [reflexivity |].
  rewrite count_occ_app.
  assert (Hbase : count_occ string_dec
            (filter (fun item => negb (key_in String.eqb (default_key item) (map default_key l2)))
                    (items items1)) x = 0).
  { apply count_occ_not_In. intros Hx. apply filter_In in Hx. destruct Hx as [_ Hx].
    apply negb_true_iff in Hx.
    assert (Hk : key_in String.eqb (default_key x) (map default_key l2) = true).
    { apply key_in_string. unfold default_key. rewrite map_id. exact Hin. }
    rewrite Hk in Hx. discriminate Hx. }
  rewrite Hbase. reflexivity.
Qed.

(** *** Two specs linked by [inherit_from] *)

Definition base_env : EnvSpec :=
  {| _name := PStr "base";
     _conda_packages := ["numpy"; "pandas"];
     _channels := ["defaults"];
     _pip_packages := ["flask"];
     _description := PNone;
     _channels_and_packages_hash := None;
     _inherit_from_name := PNone;
     _inherit_from := None |}.

Definition child_env : EnvSpec :=
  {| _name := PStr "default";
     _conda_packages := ["pandas"; "scipy"];
     _channels := ["conda-forge"];
     _pip_packages := [];
     _description := PNone;
     _channels_and_packages_hash := None;
     _inherit_from_name := PStr "base";
     _inherit_from := Some base_env |}.

Lemma base_env_constructed :
  __init__ (PStr "base") (PyList ["numpy"; "pandas"]) (PyList ["defaults"])
    (PyList ["flask"]) PNone PNone None = Ok base_env.
Proof. reflexivity. Qed.

Lemma child_env_constructed :
  __init__ (PStr "default") (PyList ["pandas"; "scipy"]) (PyList ["conda-forge"])
    (PyTuple []) PNone (PStr "base") (Some base_env) = Ok child_env.
Proof. reflexivity. Qed.

(** C3.  For a parent and a child linked by [inherit_from], the claim
    gives the child an effective sequence: the parent's entries that the
    child does not override, then the child's own entries, each overridden
    entry once and at the child's position.  On [child_env], built by the
    constructor on top of [base_env], none of the three effective sequences
    is computed: [conda_packages], [channels] and [pip_packages] raise
    [TypeError], because [_combine_keeping_last_duplicate] adds the child's
    own tuple to a list. *)
Theorem C3_child_effective_sequences_raise :
  _inherit_from child_env = Some base_env
  /\ conda_packages base_env = Ok (PyTuple ["numpy"; "pandas"])
  /\ conda_packages child_env = Raise TypeError
  /\ channels child_env = Raise TypeError
  /\ pip_packages child_env = Raise TypeError.
Proof. repeat split; reflexivity. Qed.

(** ** to_json *)

Lemma to_json_no_parent (s : EnvSpec) :
  _inherit_from s = None ->
  to_json s =
    Ok (PDict
          (let packages :=
             map PStr (_conda_packages s) ++
             match _pip_packages s with
             | [] => []
             | _ => [PDict [("pip", PList (map PStr (_pip_packages s)))]]
             end in
           let result :=
             [("packages", PList packages); ("channels", PList (map PStr (_channels s)))] in
           if is_none (_inherit_from_name s) then result
           else result ++ [("inherit_from", _inherit_from_name s)])).
Proof.
  intros Hroot. unfold to_json, conda_packages, pip_packages, channels.
  rewrite !(_get_inherited_no_parent _ s Hroot). simpl.
  unfold inherit_from_name.
  destruct (_pip_packages s) as [| p ps]; simpl.
  - rewrite app_nil_r. destruct (is_none (_inherit_from_name s)); reflexivity.
  - destruct (is_none (_inherit_from_name s)); reflexivity.
Qed.

Lemma to_json_with_parent (s parent : EnvSpec) :
  _inherit_from s = Some parent -> to_json s = Raise TypeError.
Proof.
  intros Hparent. unfold to_json, conda_packages.
  rewrite (_get_inherited_with_parent _ s parent Hparent). reflexivity.
Qed.

(** C1.  The claim makes [to_json] return, for every spec, a mapping with
    the spec's own packages and channels.  On [child_env], whose own conda
    packages are [pandas] and [scipy], [to_json] returns no mapping: it
    reads the merged property [conda_packages], which raises [TypeError]. *)
Theorem C1_to_json_of_child_raises :
  _conda_packages child_env = ["pandas"; "scipy"]
  /\ _inherit_from_name child_env = PStr "base"
  /\ to_json child_env = Raise TypeError.
Proof. repeat split; reflexivity. Qed.

(** ** channels_and_packages_hash *)

(** The bytes the claim feeds the digest: every conda package, then every
    pip package, then every channel, with nothing in between. *)
Definition hashed_bytes (conda pip chans : list string) : list byte :=
  List.concat (map encode_utf8 conda) ++ List.concat (map encode_utf8 pip)
  ++ List.concat (map encode_utf8 chans).

Definition sha1_hex (message : list byte) : string :=
  hashlib.hex (hashlib.sha1_digest message).

(** The cache, when filled, holds what the body computes. *)
Definition cache_ok (s : EnvSpec) : Prop :=
  forall h, _channels_and_packages_hash s = Some h -> fresh_hash s = Ok h.

Lemma feed_fed (packages : pyseq string) (m : hashlib.sha1_object) :
  hashlib.fed (feed m packages)
  = hashlib.fed m ++ List.concat (map encode_utf8 (items packages)).
Proof.
  unfold feed. generalize (items packages) as l. intros l. revert m.
  induction l as [| p l IH]; intros m; simpl.
  - rewrite app_nil_r. reflexivity.
  - rewrite IH. simpl. rewrite <- app_assoc. reflexivity.
Qed.

Lemma fresh_hash_no_parent (s : EnvSpec) :
  _inherit_from s = None ->
  fresh_hash s
  = Ok (sha1_hex (hashed_bytes (_conda_packages s) (_pip_packages s) (_channels s))).
Proof.
  intros Hroot. unfold fresh_hash, conda_packages, pip_packages, channels.
  rewrite !(_get_inherited_no_parent _ s Hroot). simpl.
  unfold hashlib.hexdigest, sha1_hex, hashed_bytes.
  rewrite !feed_fed. simpl. rewrite <- app_assoc. reflexivity.
Qed.

Lemma fresh_hash_with_parent (s parent : EnvSpec) :
  _inherit_from s = Some parent -> fresh_hash s = Raise TypeError.
Proof.
  intros Hparent. unfold fresh_hash, conda_packages.
  rewrite (_get_inherited_with_parent _ s parent Hparent). reflexivity.
Qed.

(** The value of the property, without the object it leaves. *)
Definition hash_value (s : EnvSpec) : result string :=
  r <- channels_and_packages_hash s ;; Ok (fst r).

Lemma hash_value_no_parent (s : EnvSpec) :
  _inherit_from s = None -> cache_ok s ->
  hash_value s
  = Ok (sha1_hex (hashed_bytes (_conda_packages s) (_pip_packages s) (_channels s))).
Proof.
  intros Hroot Hcache. unfold hash_value, channels_and_packages_hash.
  destruct (_channels_and_packages_hash s) as [h |] eqn:Hc.
  - simpl. rewrite <- (fresh_hash_no_parent s Hroot). symmetry. apply Hcache. exact Hc.
  - rewrite (fresh_hash_no_parent s Hroot). reflexivity.
Qed.

(** Specs without a parent whose sequences concatenate to the same bytes
    have the same hash, however the bytes are cut into entries. *)
Lemma hash_value_same_bytes (s1 s2 : EnvSpec) :
  _inherit_from s1 = None -> _inherit_from s2 = None -> cache_ok s1 -> cache_ok s2 ->
  hashed_bytes (_conda_packages s1) (_pip_packages s1) (_channels s1)
  = hashed_bytes (_conda_packages s2) (_pip_packages s2) (_channels s2) ->
  hash_value s1 = hash_value s2.
Proof.
  intros R1 R2 C1 C2 Hbytes.
  rewrite (hash_value_no_parent s1 R1 C1), (hash_value_no_parent s2 R2 C2), Hbytes.
  reflexivity.
Qed.

(** The two cuts of the specification: [ab], [c] and [a], [bc]. *)
Example hash_value_ab_c :
  hash_value (Build_EnvSpec (PStr "env") ["ab"; "c"] [] [] PNone None PNone None)
  = hash_value (Build_EnvSpec (PStr "env") ["a"; "bc"] [] [] PNone None PNone None).
Proof.
  apply hash_value_same_bytes; try reflexivity; intros h Hh; discriminate Hh.
Qed.

(** C4.  The claim gives every spec a hash, the SHA-1 hex digest of its
    effective conda packages, pip packages and channels.  [child_env],
    which has a parent and an empty cache, gets none: the property raises
    [TypeError] at its first loop, on [self.conda_packages]. *)
Theorem C4_hash_of_child_raises :
  _channels_and_packages_hash child_env = None
  /\ channels_and_packages_hash child_env = Raise TypeError.
Proof. split; reflexivity. Qed.

(** *** Two specs that differ in the order of their conda packages *)

Definition tests_first_env : EnvSpec :=
  {| _name := PStr "default";
     _conda_packages := ["py"; "test"; "pytest"];
     _channels := ["defaults"];
     _pip_packages := [];
     _description := PNone;
     _channels_and_packages_hash := None;
     _inherit_from_name := PNone;
     _inherit_from := None |}.

Definition tests_last_env : EnvSpec :=
  {| _name := PStr "default";
     _conda_packages := ["pytest"; "py"; "test"];
     _channels := ["defaults"];
     _pip_packages := [];
     _description := PNone;
     _channels_and_packages_hash := None;
     _inherit_from_name := PNone;
     _inherit_from := None |}.

Lemma tests_first_env_constructed :
  __init__ (PStr "default") (PyList ["py"; "test"; "pytest"]) (PyList ["defaults"])
    (PyTuple []) PNone PNone None = Ok tests_first_env.
Proof. reflexivity. Qed.

Lemma tests_last_env_constructed :
  __init__ (PStr "default") (PyList ["pytest"; "py"; "test"]) (PyList ["defaults"])
    (PyTuple []) PNone PNone None = Ok tests_last_env.
Proof. reflexivity. Qed.

(** C5.  The claim, like the docstring of the property ("Order matters
    (change in order will count as a change)"), makes any reordering of an
    effective list change the hash.  [tests_first_env] and
    [tests_last_env] have the same pip packages and channels, and conda
    packages that are a reordering of each other and differ; both feed
    the digest the bytes of [pytestpytestdefaults] and have the same
    hash. *)
Theorem C5_reordered_packages_same_hash :
  conda_packages tests_first_env = Ok (PyTuple ["py"; "test"; "pytest"])
  /\ conda_packages tests_last_env = Ok (PyTuple ["pytest"; "py"; "test"])
  /\ Permutation ["py"; "test"; "pytest"] ["pytest"; "py"; "test"]
  /\ ["py"; "test"; "pytest"] <> ["pytest"; "py"; "test"]
  /\ pip_packages tests_first_env = pip_packages tests_last_env
  /\ channels tests_first_env = channels tests_last_env
  /\ hash_value tests_first_env = hash_value tests_last_env
  /\ hash_value tests_first_env = Ok "6a246c512fbf5e607cafc6eea9d85c5851928680".
Proof.
  split; [reflexivity |]. split; [reflexivity |].
  split.
  { apply (perm_trans (l' := ["py"; "pytest"; "test"])).
    - apply perm_skip. apply perm_swap.
    - apply perm_swap. }
  split; [discriminate |].
  split; [reflexivity |]. split; [reflexivity |].
  split; vm_compute; reflexivity.
Qed.

(** ** Construction and the inheritance link *)

(** The contract of the constructor: no parent object, or a parent name
    that is present and equal to the name of the parent object. *)
Definition inherit_invariant (s : EnvSpec) : Prop :=
  match inherit_from s with
  | None => True
  | Some parent =>
      inherit_from_name s <> PNone
      /\ py_eqb (inherit_from_name s) (name parent) = true
  end.

(** The states an object goes through.  No method assigns to a field
    other than the hash cache, and the only method that leaves the object
    different is [channels_and_packages_hash]. *)
Inductive later (s : EnvSpec) : EnvSpec -> Prop :=
| later_now : later s s
| later_hash (s' s'' : EnvSpec) (h : string) :
    later s s' -> channels_and_packages_hash s' = Ok (h, s'') -> later s s''.

Lemma is_none_false (v : pyval) : is_none v = false <-> v <> PNone.
Proof.
  destruct v; simpl; split; intros H; try reflexivity; try discriminate.
  exfalso. apply H. reflexivity.
Qed.

Lemma py_eqb_str (a b : string) : py_eqb (PStr a) (PStr b) = true <-> a = b.
Proof. simpl. apply String.eqb_eq. Qed.

Lemma __init___outcome
    (n : pyval) (conda chans pip : pyseq string) (descr ifn : pyval)
    (inh : option EnvSpec) :
  let self := Build_EnvSpec n (items conda) (items chans) (items pip) descr None ifn inh in
  match inh with
  | None => __init__ n conda chans pip descr ifn inh = Ok self
  | Some parent =>
      if negb (is_none ifn) && py_eqb ifn (_name parent)
      then __init__ n conda chans pip descr ifn inh = Ok self
      else __init__ n conda chans pip descr ifn inh = Raise AssertionError
  end.
Proof.
  unfold __init__. simpl. destruct inh as [parent |]; [| reflexivity].
  destruct (negb (is_none ifn) && py_eqb ifn (_name parent)); reflexivity.
Qed.

Lemma hash_keeps_fields (s s' : EnvSpec) (h : string) :
  channels_and_packages_hash s = Ok (h, s') ->
  s' = set_hash_cache s (_channels_and_packages_hash s').
Proof.
  unfold channels_and_packages_hash.
  destruct (_channels_and_packages_hash s) as [c |] eqn:Hc.
  - intros H. injection H as _ <-. rewrite Hc. destruct s. simpl in *. subst. reflexivity.
  - intros H. apply bind_Ok in H. destruct H as [h' [_ H]]. injection H as _ <-.
    reflexivity.
Qed.

Lemma later_keeps_fields (s s' : EnvSpec) :
  later s s' -> s' = set_hash_cache s (_channels_and_packages_hash s').
Proof.
  induction 1 as [| s' s'' h Hlater IH Hhash].
  - destruct s. reflexivity.
  - apply hash_keeps_fields in Hhash. rewrite Hhash, IH. reflexivity.
Qed.

Lemma inherit_invariant_set_hash_cache (s : EnvSpec) (c : option string) :
  inherit_invariant s -> inherit_invariant (set_hash_cache s c).
Proof. intros H. exact H. Qed.

(** C6.  Construction with a parent object fails with [AssertionError]
    when the parent name is absent or differs from the name of the parent
    object; a constructed spec has no parent object, or a parent name that
    is present and equals the parent object's name; and this holds of
    every later state of the object. *)
Theorem C6_inheritance_link_checked_at_construction
    (n : pyval) (conda chans pip : pyseq string) (descr ifn : pyval)
    (inh : option EnvSpec) :
  (forall parent,
      inh = Some parent ->
      ifn = PNone \/ py_eqb ifn (name parent) = false ->
      __init__ n conda chans pip descr ifn inh = Raise AssertionError)
  /\ (forall self,
         __init__ n conda chans pip descr ifn inh = Ok self ->
         forall self', later self self' -> inherit_invariant self').
Proof.
  pose proof (__init___outcome n conda chans pip descr ifn inh) as Hout.
  simpl in Hout. split.
  - intros parent -> Hbad.
    destruct (negb (is_none ifn) && py_eqb ifn (_name parent)) eqn:Hcheck;
      [| exact Hout].
    apply andb_true_iff in Hcheck. destruct Hcheck as [Hname Heq].
    destruct Hbad as [-> | Hneq].
    + discriminate Hname.
    + unfold name in Hneq. rewrite Heq in Hneq. discriminate Hneq.
  - intros self Hinit self' Hlater.
    rewrite (later_keeps_fields self self' Hlater). apply inherit_invariant_set_hash_cache.
    destruct inh as [parent |].
    + destruct (negb (is_none ifn) && py_eqb ifn (_name parent)) eqn:Hcheck.
      * rewrite Hout in Hinit. injection Hinit as <-.
        apply andb_true_iff in Hcheck. destruct Hcheck as [Hname Heq].
        unfold inherit_invariant. simpl. split.
        -- apply is_none_false. apply negb_true_iff. exact Hname.
        -- exact Heq.
      * rewrite Hout in Hinit. discriminate Hinit.
    + rewrite Hout in Hinit. injection Hinit as <-. exact I.
Qed.

Lemma C6_witness :
  __init__ (PStr "default") (PyList ["pandas"; "scipy"]) (PyList ["conda-forge"])
    (PyTuple []) PNone (PStr "other") (Some base_env) = Raise AssertionError
  /\ __init__ (PStr "default") (PyList ["pandas"; "scipy"]) (PyList ["conda-forge"])
       (PyTuple []) PNone PNone (Some base_env) = Raise AssertionError
  /\ inherit_invariant child_env.
Proof.
  split; [| split].
  - apply (proj1 (C6_inheritance_link_checked_at_construction
                    (PStr "default") (PyList ["pandas"; "scipy"]) (PyList ["conda-forge"])
                    (PyTuple []) PNone (PStr "other") (Some base_env)) base_env eq_refl).
    right. reflexivity.
  - apply (proj1 (C6_inheritance_link_checked_at_construction
                    (PStr "default") (PyList ["pandas"; "scipy"]) (PyList ["conda-forge"])
                    (PyTuple []) PNone PNone (Some base_env)) base_env eq_refl).
    left. reflexivity.
  - apply (proj2 (C6_inheritance_link_checked_at_construction
                    (PStr "default") (PyList ["pandas"; "scipy"]) (PyList ["conda-forge"])
                    (PyTuple []) PNone (PStr "base") (Some base_env))
                 child_env child_env_constructed child_env).
    apply later_now.
Defined.

(** ** diff_from *)

Lemma lcs_ndiff_marks_common : ndiff_marks_common lcs_ndiff.
Proof.
  intros a. induction a as [| x a IH]; simpl.
  - reflexivity.
  - rewrite String.eqb_refl, IH. reflexivity.
Qed.

Lemma join_head_nonempty (sep : string) (c : ascii) (l : string) (rest : list string) :
  join sep (String c l :: rest) <> "".
Proof. destruct rest; simpl; discriminate. Qed.

(** What [diff_from] prints for a spec compared with itself: every entry
    as a common line, the channels and the pip packages indented under
    their header, and no header for an empty sequence. *)
Definition unchanged (entries : list string) : list string :=
  map (String.append "  ") entries.

Definition under (header : string) (lines : list string) : list string :=
  match lines with
  | [] => []
  | _ => header :: map (String.append "    ") lines
  end.

Definition self_diff_lines (s : EnvSpec) : list string :=
  under "  channels:" (unchanged (_channels s))
  ++ unchanged (_conda_packages s)
  ++ under "  pip:" (unchanged (_pip_packages s)).

Lemma self_diff_lines_nil (s : EnvSpec) :
  join newline (self_diff_lines s) = ""
  <-> _channels s = [] /\ _conda_packages s = [] /\ _pip_packages s = [].
Proof.
  unfold self_diff_lines. split.
  - destruct (_channels s) as [| c cs]; cbn [under unchanged map app].
    + destruct (_conda_packages s) as [| p ps]; cbn [under unchanged map app].
      * destruct (_pip_packages s) as [| q qs]; cbn [under unchanged map app].
        -- intros _. repeat split.
        -- intros H. exfalso. revert H. apply join_head_nonempty.
      * intros H. exfalso. revert H.
        change (String.append "  " p) with (String " " (String " " p)).
        apply join_head_nonempty.
    + intros H. exfalso. revert H. apply join_head_nonempty.
  - intros [-> [-> ->]]. reflexivity.
Qed.

Lemma diff_from_self_no_parent
    (ndiff : list string -> list string -> list string) (s : EnvSpec) :
  ndiff_marks_common ndiff ->
  _inherit_from s = None ->
  diff_from ndiff s s = Ok (join newline (self_diff_lines s)).
Proof.
  intros Hndiff Hroot. unfold diff_from, channels, conda_packages, pip_packages.
  rewrite !(_get_inherited_no_parent _ s Hroot). simpl.
  rewrite !Hndiff. unfold self_diff_lines, under, unchanged.
  destruct (_channels s); destruct (_pip_packages s); reflexivity.
Qed.

Lemma diff_from_self_with_parent
    (ndiff : list string -> list string -> list string) (s parent : EnvSpec) :
  _inherit_from s = Some parent -> diff_from ndiff s s = Raise TypeError.
Proof.
  intros Hparent. unfold diff_from, channels.
  rewrite (_get_inherited_with_parent _ s parent Hparent). reflexivity.
Qed.

(** C2, as the code has it.  For a spec without a parent object,
    [diff_from] of the spec against itself prints every effective entry as
    a common line (the channels under [channels:], the pip packages under
    [pip:]); a section is left out only when its sequence is empty, and
    the result is the empty string exactly when the spec has no channel,
    no conda package and no pip package. *)
Theorem C2_diff_from_self_lists_every_entry
    (ndiff : list string -> list string -> list string) (s : EnvSpec) :
  ndiff_marks_common ndiff ->
  _inherit_from s = None ->
  diff_from ndiff s s = Ok (join newline (self_diff_lines s))
  /\ (diff_from ndiff s s = Ok ""
      <-> _channels s = [] /\ _conda_packages s = [] /\ _pip_packages s = []).
Proof.
  intros Hndiff Hroot.
  pose proof (diff_from_self_no_parent ndiff s Hndiff Hroot) as Hself.
  split; [exact Hself |]. rewrite Hself. split.
  - intros H. apply self_diff_lines_nil. injection H as H. exact H.
  - intros H. apply self_diff_lines_nil in H. rewrite H. reflexivity.
Qed.

Lemma C2_witness :
  diff_from lcs_ndiff base_env base_env
  = Ok (join newline ["  channels:"; "      defaults"; "  numpy"; "  pandas";
                      "  pip:"; "      flask"]).
Proof.
  exact (proj1 (C2_diff_from_self_lists_every_entry
                  lcs_ndiff base_env lcs_ndiff_marks_common eq_refl)).
Defined.

(** C2, as the claim has it, fails on [base_env]: the spec compared with
    itself does not give the empty string, and none of its three sections
    is left out. *)
Lemma C2_diff_from_self_not_empty :
  diff_from lcs_ndiff base_env base_env
  = Ok (join newline ["  channels:"; "      defaults"; "  numpy"; "  pandas";
                      "  pip:"; "      flask"])
  /\ diff_from lcs_ndiff base_env base_env <> Ok "".
Proof. split; [reflexivity | discriminate]. Qed.

(** ** The loader *)

Section loader_facts.

Variable codecs_open_read : string -> result string.
Variable _load_string : string -> result pyval.

Let load := _load_environment_yml codecs_open_read _load_string.

(** A file that cannot be opened or read gives "not loaded". *)
Lemma _load_environment_yml_IOError (filename : string) :
  codecs_open_read filename = Raise IOError -> load filename = Ok None.
Proof.
  intros H. unfold load, _load_environment_yml. rewrite H. reflexivity.
Qed.

(** A text the parser rejects gives "not loaded". *)
Lemma _load_environment_yml_YAMLError (filename contents : string) :
  codecs_open_read filename = Ok contents ->
  _load_string contents = Raise YAMLError ->
  load filename = Ok None.
Proof.
  intros Hread Hparse. unfold load, _load_environment_yml.
  rewrite Hread. simpl. rewrite Hparse. reflexivity.
Qed.

(** An exception of another class, raised while reading, goes through
    the [except] clause. *)
Lemma _load_environment_yml_read_propagates (filename : string) (e : exn) :
  e <> IOError -> e <> YAMLError ->
  codecs_open_read filename = Raise e -> load filename = Raise e.
Proof.
  intros Hio Hyaml H. unfold load, _load_environment_yml. rewrite H. simpl.
  destruct e; try reflexivity; congruence.
Qed.

Lemma _load_environment_yml_parsed (filename contents : string) (yaml : pyval) :
  codecs_open_read filename = Ok contents ->
  _load_string contents = Ok yaml ->
  load filename = (spec <- _load_parsed yaml filename ;; Ok (Some spec)).
Proof.
  intros Hread Hparse. unfold load, _load_environment_yml.
  rewrite Hread. simpl. rewrite Hparse. reflexivity.
Qed.

End loader_facts.

(** C7.  The claim makes every failure to read the file give "not
    loaded".  [codecs.open(filename, 'r', 'utf-8')] decodes what it reads,
    and a file whose bytes are not UTF-8 makes [file.read()] raise
    [UnicodeDecodeError], a [ValueError] that [except (IOError, _YAMLError)]
    does not name: the loader raises it to its caller. *)
Theorem C7_undecodable_file_not_caught :
  _load_environment_yml
    (fun _ => Raise UnicodeDecodeError) (fun _ => Ok (PDict []))
    "environment.yml"
  = Raise UnicodeDecodeError.
Proof. reflexivity. Qed.

(** *** The name of the loaded spec *)

Lemma dict_lookup_remove_same (k : string) (d : list (string * pyval)) :
  dict_lookup k (dict_remove k d) = None.
Proof.
  induction d as [| [k' v] d IH]; simpl; [reflexivity |].
  destruct (String.eqb k k') eqn:E; [exact IH |].
  simpl. rewrite E. exact IH.
Qed.

Lemma dict_lookup_remove_other (k k' : string) (d : list (string * pyval)) :
  String.eqb k' k = false ->
  dict_lookup k' (dict_remove k d) = dict_lookup k' d.
Proof.
  intros Hneq. induction d as [| [k0 v] d IH]; simpl; [reflexivity |].
  destruct (String.eqb k k0) eqn:E.
  - apply String.eqb_eq in E. subst k0. rewrite Hneq. exact IH.
  - simpl. rewrite IH. reflexivity.
Qed.

(** The name taken from [prefix], or from the path of the file. *)
Definition name_from_prefix (d : list (string * pyval)) (filename : string) : result pyval :=
  match dict_lookup "prefix" d with
  | Some prefix =>
      if truthy prefix then
        match prefix with
        | PStr p =>
            Ok (if String.eqb (basename p) "" then PStr (basename filename)
                else PStr (basename p))
        | _ => Raise TypeError
        end
      else Ok (PStr (basename filename))
  | None => Ok (PStr (basename filename))
  end.

Lemma _load_name_mapping (d : list (string * pyval)) (filename : string) :
  _load_name (PDict d) filename =
    match dict_lookup "name" d with
    | Some v => if truthy v then Ok v else name_from_prefix d filename
    | None => name_from_prefix d filename
    end.
Proof.
  unfold _load_name, name_from_prefix. simpl.
  destruct (dict_lookup "name" d) as [v |]; simpl.
  - destruct (truthy v) eqn:Hv; simpl.
    + rewrite Hv. reflexivity.
    + destruct (dict_lookup "prefix" d) as [prefix |]; simpl.
      * destruct (truthy prefix) eqn:Hp; simpl.
        -- destruct prefix; simpl; try reflexivity.
           destruct (String.eqb (basename s) ""); reflexivity.
        -- rewrite Hv. reflexivity.
      * rewrite Hv. reflexivity.
  - destruct (dict_lookup "prefix" d) as [prefix |]; simpl.
    + destruct (truthy prefix) eqn:Hp; simpl.
      * destruct prefix; simpl; try reflexivity.
        destruct (String.eqb (basename s) ""); reflexivity.
      * reflexivity.
    + reflexivity.
Qed.

(** On a mapping, only the name can fail; the spec has the name found
    and no inheritance link. *)
Lemma _load_parsed_mapping (d : list (string * pyval)) (filename : string) :
  match _load_name (PDict d) filename with
  | Ok n =>
      exists spec,
        _load_parsed (PDict d) filename = Ok spec
        /\ name spec = n /\ _inherit_from spec = None
        /\ _channels_and_packages_hash spec = None
  | Raise e => _load_parsed (PDict d) filename = Raise e
  end.
Proof.
  unfold _load_parsed.
  destruct (_load_name (PDict d) filename) as [n | e]; simpl; [| reflexivity].
  destruct (fold_left _load_dep _ _) as [conda pip].
  eexists. split; [reflexivity |]. repeat split.
Qed.

(** A document that is not a mapping is not loaded: the loader raises. *)
Lemma _load_parsed_not_mapping (yaml : pyval) (filename : string) :
  (forall d, yaml <> PDict d) ->
  exists e, _load_parsed yaml filename = Raise e.
Proof.
  intros Hnot. unfold _load_parsed, _load_name, _load_list.
  destruct yaml as [| b | z | s | l | d];
    cbn [bind py_contains py_getitem py_get];
    try (eexists; reflexivity).
  - destruct (str_contains "name" s);
      cbn [bind py_contains py_getitem py_get truthy negb]; [eexists; reflexivity |].
    destruct (str_contains "prefix" s);
      cbn [bind py_contains py_getitem py_get truthy negb]; eexists; reflexivity.
  - destruct (existsb (py_eqb (PStr "name")) l);
      cbn [bind py_contains py_getitem py_get truthy negb]; [eexists; reflexivity |].
    destruct (existsb (py_eqb (PStr "prefix")) l);
      cbn [bind py_contains py_getitem py_get truthy negb]; eexists; reflexivity.
  - exfalso. apply (Hnot d). reflexivity.
Qed.

(** The fallback order as the loader applies it: the [name] field when it
    is truthy; otherwise the base name of the [prefix] field when that
    base name is not empty; otherwise the base name of the path. *)
Definition fallback_name (d : list (string * pyval)) (filename : string) : pyval :=
  let from_path := PStr (basename filename) in
  let from_prefix :=
    match dict_lookup "prefix" d with
    | Some (PStr p) => if String.eqb (basename p) "" then from_path else PStr (basename p)
    | _ => from_path
    end in
  match dict_lookup "name" d with
  | Some v => if truthy v then v else from_prefix
  | None => from_prefix
  end.

(** The fallback order as the claim words it: the [name] field when it
    yields a name; otherwise the base name of the [prefix] field when the
    field is not empty; otherwise the base name of the path. *)
Definition claimed_name (d : list (string * pyval)) (filename : string) : pyval :=
  let from_path := PStr (basename filename) in
  let from_prefix :=
    match dict_lookup "prefix" d with
    | Some (PStr p) => if String.eqb p "" then from_path else PStr (basename p)
    | _ => from_path
    end in
  match dict_lookup "name" d with
  | Some v => if truthy v then v else from_prefix
  | None => from_prefix
  end.

(** A [prefix] that counts is a string. *)
Definition prefix_is_text (d : list (string * pyval)) : Prop :=
  forall v, dict_lookup "prefix" d = Some v -> truthy v = true -> is_string v = true.

Lemma name_from_prefix_fallback (d : list (string * pyval)) (filename : string) (n : pyval) :
  name_from_prefix d filename = Ok n ->
  n = match dict_lookup "prefix" d with
      | Some (PStr p) =>
          if String.eqb (basename p) "" then PStr (basename filename) else PStr (basename p)
      | _ => PStr (basename filename)
      end.
Proof.
  unfold name_from_prefix.
  destruct (dict_lookup "prefix" d) as [prefix |]; [| congruence].
  destruct (truthy prefix) eqn:Hp.
  - destruct prefix; try discriminate. congruence.
  - intros H. injection H as <-. destruct prefix; try reflexivity.
    simpl in Hp. apply negb_false_iff in Hp. apply String.eqb_eq in Hp. subst s.
    reflexivity.
Qed.

Lemma _load_name_fallback (d : list (string * pyval)) (filename : string) (n : pyval) :
  _load_name (PDict d) filename = Ok n -> n = fallback_name d filename.
Proof.
  rewrite _load_name_mapping. unfold fallback_name.
  destruct (dict_lookup "name" d) as [v |].
  - destruct (truthy v); [congruence | apply name_from_prefix_fallback].
  - apply name_from_prefix_fallback.
Qed.

Lemma _load_name_returns (d : list (string * pyval)) (filename : string) :
  prefix_is_text d -> exists n, _load_name (PDict d) filename = Ok n.
Proof.
  intros Htext. rewrite _load_name_mapping.
  assert (H : exists n, name_from_prefix d filename = Ok n).
  { unfold name_from_prefix.
    destruct (dict_lookup "prefix" d) as [prefix |] eqn:Hl; [| eexists; reflexivity].
    destruct (truthy prefix) eqn:Hp; [| eexists; reflexivity].
    specialize (Htext prefix Hl Hp).
    destruct prefix; try discriminate Htext. eexists. reflexivity. }
  destruct (dict_lookup "name" d) as [v |]; [| exact H].
  destruct (truthy v); [eexists; reflexivity | exact H].
Qed.

(** C8, as the code has it.  A parsed document that is a mapping, with a
    [prefix] that is a string when it counts, is loaded, and a loaded spec
    always has the name of the fallback order: the [name] field when it is
    truthy; otherwise the base name of the [prefix] field when that base
    name is not empty; otherwise the base name of the path of the file. *)
Theorem C8_loaded_name_follows_fallback_order
    (codecs_open_read : string -> result string)
    (_load_string : string -> result pyval)
    (filename contents : string) (yaml : pyval) :
  codecs_open_read filename = Ok contents ->
  _load_string contents = Ok yaml ->
  (forall d, yaml = PDict d -> prefix_is_text d ->
     exists spec,
       _load_environment_yml codecs_open_read _load_string filename = Ok (Some spec))
  /\ (forall spec,
        _load_environment_yml codecs_open_read _load_string filename = Ok (Some spec) ->
        exists d, yaml = PDict d /\ name spec = fallback_name d filename).
Proof.
  intros Hread Hparse.
  rewrite (_load_environment_yml_parsed _ _ _ _ _ Hread Hparse). split.
  - intros d -> Htext. destruct (_load_name_returns d filename Htext) as [n Hn].
    pose proof (_load_parsed_mapping d filename) as Hm. rewrite Hn in Hm.
    destruct Hm as [spec [Hspec _]]. exists spec. rewrite Hspec. reflexivity.
  - intros spec Hload. apply bind_Ok in Hload. destruct Hload as [spec' [Hspec Heq]].
    injection Heq as ->.
    assert (Hdict : exists d, yaml = PDict d).
    { destruct yaml as [| b | z | s | l | d]; try (eexists; reflexivity);
        match type of Hspec with
        | _load_parsed ?y _ = _ =>
            destruct (_load_parsed_not_mapping y filename) as [e He];
            [intros d0; discriminate | rewrite He in Hspec; discriminate Hspec]
        end. }
    destruct Hdict as [d ->].
    exists d. split; [reflexivity |].
    pose proof (_load_parsed_mapping d filename) as Hm.
    destruct (_load_name (PDict d) filename) as [n | e] eqn:Hn.
    + destruct Hm as [spec0 [Hspec0 [Hname _]]].
      rewrite Hspec0 in Hspec. injection Hspec as <-.
      rewrite Hname. apply (_load_name_fallback d filename). exact Hn.
    + rewrite Hm in Hspec. discriminate Hspec.
Qed.

(** An [environment.yml] with a prefix and no name. *)
Definition prefix_only_file : string -> result string :=
  fun _ => Ok "prefix: /opt/envs/myenv".

Definition prefix_only_parser : string -> result pyval :=
  fun _ => Ok (PDict [("prefix", PStr "/opt/envs/myenv")]).

Lemma C8_witness :
  exists spec,
    _load_environment_yml prefix_only_file prefix_only_parser "/project/environment.yml"
      = Ok (Some spec)
    /\ name spec = PStr "myenv".
Proof.
  destruct (C8_loaded_name_follows_fallback_order
              prefix_only_file prefix_only_parser
              "/project/environment.yml" "prefix: /opt/envs/myenv"
              (PDict [("prefix", PStr "/opt/envs/myenv")]) eq_refl eq_refl)
    as [Hloads Hname].
  destruct (Hloads [("prefix", PStr "/opt/envs/myenv")] eq_refl) as [spec Hspec].
  - intros v Hv Ht. injection Hv as <-. reflexivity.
  - exists spec. split; [exact Hspec |].
    destruct (Hname spec Hspec) as [d [Hd Hn]]. injection Hd as <-. exact Hn.
Defined.

(** C8, as the claim has it, fails on a prefix that ends with a slash:
    the field is explicit and not empty, its base name is empty, and the
    loaded spec is named after the file, not after the prefix. *)
Lemma C8_prefix_with_trailing_slash :
  let d := [("prefix", PStr "/opt/envs/myenv/")] in
  exists spec,
    _load_environment_yml (fun _ => Ok "prefix: /opt/envs/myenv/") (fun _ => Ok (PDict d))
      "/project/environment.yml" = Ok (Some spec)
    /\ name spec = PStr "environment.yml"
    /\ claimed_name d "/project/environment.yml" = PStr ""
    /\ name spec <> claimed_name d "/project/environment.yml".
Proof.
  simpl. eexists. split; [reflexivity |]. split; [reflexivity |].
  split; [reflexivity | discriminate].
Qed.

(** *** A name that is present and falsy *)

Lemma _load_parsed_without_falsy_name
    (d : list (string * pyval)) (filename : string) (v : pyval) :
  dict_lookup "name" d = Some v -> truthy v = false ->
  _load_parsed (PDict d) filename = _load_parsed (PDict (dict_remove "name" d)) filename.
Proof.
  intros Hname Hfalsy.
  assert (Hn : _load_name (PDict d) filename
               = _load_name (PDict (dict_remove "name" d)) filename).
  { rewrite !_load_name_mapping. rewrite Hname, Hfalsy, dict_lookup_remove_same.
    unfold name_from_prefix. rewrite dict_lookup_remove_other; reflexivity. }
  assert (Hl : forall key, String.eqb key "name" = false ->
               _load_list (PDict d) key = _load_list (PDict (dict_remove "name" d)) key).
  { intros key Hkey. unfold _load_list, py_get.
    rewrite (dict_lookup_remove_other "name" key d Hkey). reflexivity. }
  unfold _load_parsed. rewrite Hn.
  rewrite (Hl "dependencies" eq_refl), (Hl "channels" eq_refl). reflexivity.
Qed.

(** C10.  When the document has a [name] field whose value is falsy (the
    empty string, null), the loader returns what it returns for the same
    document without the field: the name is the base name of [prefix], or
    else of the path of the file. *)
Theorem C10_falsy_name_is_absent_name
    (codecs_open_read : string -> result string)
    (_load_string : string -> result pyval)
    (filename contents : string) (d : list (string * pyval)) (v : pyval) :
  codecs_open_read filename = Ok contents ->
  _load_string contents = Ok (PDict d) ->
  dict_lookup "name" d = Some v ->
  truthy v = false ->
  _load_environment_yml codecs_open_read _load_string filename
  = (spec <- _load_parsed (PDict (dict_remove "name" d)) filename ;; Ok (Some spec))
  /\ (forall spec,
        _load_environment_yml codecs_open_read _load_string filename = Ok (Some spec) ->
        name spec = fallback_name (dict_remove "name" d) filename).
Proof.
  intros Hread Hparse Hname Hfalsy.
  rewrite (_load_environment_yml_parsed _ _ _ _ _ Hread Hparse).
  rewrite (_load_parsed_without_falsy_name d filename v Hname Hfalsy).
  split; [reflexivity |].
  intros spec Hload. apply bind_Ok in Hload. destruct Hload as [spec' [Hspec Heq]].
  injection Heq as ->.
  pose proof (_load_parsed_mapping (dict_remove "name" d) filename) as Hm.
  destruct (_load_name (PDict (dict_remove "name" d)) filename) as [n | e] eqn:Hn.
  - destruct Hm as [spec0 [Hspec0 [Hname0 _]]].
    rewrite Hspec0 in Hspec. injection Hspec as <-.
    rewrite Hname0. apply _load_name_fallback. exact Hn.
  - rewrite Hm in Hspec. discriminate Hspec.
Qed.

(** An [environment.yml] with an empty name and a prefix. *)
Definition empty_name_document : list (string * pyval) :=
  [("name", PStr ""); ("prefix", PStr "/opt/envs/myenv")].

Lemma C10_witness :
  exists spec,
    _load_environment_yml
      (fun _ => Ok "{name: '', prefix: /opt/envs/myenv}")
      (fun _ => Ok (PDict empty_name_document))
      "/project/environment.yml" = Ok (Some spec)
    /\ name spec = PStr "myenv".
Proof.
  destruct (C10_falsy_name_is_absent_name
              (fun _ => Ok "{name: '', prefix: /opt/envs/myenv}")
              (fun _ => Ok (PDict empty_name_document))
              "/project/environment.yml" "{name: '', prefix: /opt/envs/myenv}"
              empty_name_document (PStr "") eq_refl eq_refl eq_refl eq_refl)
    as [Hsame Hname].
  eexists. split.
  - rewrite Hsame. reflexivity.
  - rewrite Hname; [reflexivity |]. rewrite Hsame. reflexivity.
Defined.

(** ** The out-of-sync check *)

(** An [environment.yml] for the spec [default]. *)
Definition default_document : list (string * pyval) :=
  [("name", PStr "default");
   ("dependencies", PList [PStr "pandas"; PStr "scipy"]);
   ("channels", PList [PStr "conda-forge"])].

Definition default_file : string -> result string :=
  fun _ => Ok "{name: default, dependencies: [pandas, scipy], channels: [conda-forge]}".

Definition default_parser : string -> result pyval :=
  fun _ => Ok (PDict default_document).

(** C9.  The claim makes the check return, for every collection of known
    specs, either "no out-of-sync spec" or the loaded spec.  With
    [child_env] as the known spec and a file that loads to a spec of the
    same name [default], the check returns neither: comparing the hashes
    evaluates [existing.channels_and_packages_hash], which raises
    [TypeError] on a spec that has a parent. *)
Theorem C9_known_spec_with_parent_raises :
  (exists spec,
      _load_environment_yml default_file default_parser "environment.yml" = Ok (Some spec)
      /\ name spec = name child_env)
  /\ _find_out_of_sync_environment_yml_spec default_file default_parser
       [child_env] "environment.yml" = Raise TypeError.
Proof.
  split.
  - eexists. split; reflexivity.
  - reflexivity.
Qed.

(** The same for every known spec that has a parent object and the name
    of the loaded spec, when it comes first. *)
Lemma _scan_project_specs_parent
    (existing parent spec : EnvSpec) (rest : list EnvSpec) :
  _inherit_from existing = Some parent ->
  _channels_and_packages_hash existing = None ->
  py_eqb (name existing) (name spec) = true ->
  _scan_project_specs (existing :: rest) spec = Raise TypeError.
Proof.
  intros Hparent Hcache Hname. cbn [_scan_project_specs]. rewrite Hname.
  unfold channels_and_packages_hash at 1.
  rewrite Hcache, (fresh_hash_with_parent existing parent Hparent). reflexivity.
Qed.

(** *** Known specs without a parent *)

(** A spec without a parent object, whose cache is right when filled. *)
Definition plain (s : EnvSpec) : Prop := _inherit_from s = None /\ cache_ok s.

Definition digest_of (s : EnvSpec) : string :=
  sha1_hex (hashed_bytes (_conda_packages s) (_pip_packages s) (_channels s)).

(** The test of the loop: same name and same hash. *)
Definition in_sync_with (spec existing : EnvSpec) : Prop :=
  py_eqb (name existing) (name spec) = true /\ digest_of existing = digest_of spec.

(** The same object, whatever its cache holds. *)
Definition same_object (a b : EnvSpec) : Prop :=
  set_hash_cache a None = set_hash_cache b None.

Lemma channels_and_packages_hash_plain (s : EnvSpec) :
  plain s ->
  exists s',
    channels_and_packages_hash s = Ok (digest_of s, s')
    /\ plain s' /\ same_object s' s.
Proof.
  intros [Hroot Hcache]. unfold channels_and_packages_hash.
  destruct (_channels_and_packages_hash s) as [h |] eqn:Hc.
  - exists s. specialize (Hcache h Hc). rewrite (fresh_hash_no_parent s Hroot) in Hcache.
    injection Hcache as <-. repeat split; try assumption.
    intros h' Hh'. rewrite Hc in Hh'. injection Hh' as <-.
    apply (fresh_hash_no_parent s Hroot).
  - rewrite (fresh_hash_no_parent s Hroot). simpl.
    eexists. split; [reflexivity |]. repeat split.
    + exact Hroot.
    + intros h' Hh'. simpl in Hh'. injection Hh' as <-.
      apply (fresh_hash_no_parent (set_hash_cache s (Some (digest_of s)))). exact Hroot.
Qed.

Lemma same_object_facts (a b : EnvSpec) :
  same_object a b -> name a = name b /\ digest_of a = digest_of b.
Proof.
  unfold same_object, set_hash_cache, name, digest_of. intros H.
  injection H as -> -> -> -> _ _ _. split; reflexivity.
Qed.

Lemma _scan_project_specs_plain (project_specs : list EnvSpec) :
  Forall plain project_specs ->
  forall spec, plain spec ->
  exists found specs',
    _scan_project_specs project_specs spec = Ok (found, specs')
    /\ (found = None <-> Exists (in_sync_with spec) project_specs)
    /\ (forall r, found = Some r -> same_object r spec).
Proof.
  induction 1 as [| existing rest Hexisting Hrest IH]; intros spec Hspec.
  - exists (Some spec), []. split; [reflexivity |]. split.
    + split; [discriminate | intros H; inversion H].
    + intros r Hr. injection Hr as <-. reflexivity.
  - cbn [_scan_project_specs].
    destruct (py_eqb (name existing) (name spec)) eqn:Hname.
    + destruct (channels_and_packages_hash_plain existing Hexisting)
        as [existing' [He [_ _]]].
      destruct (channels_and_packages_hash_plain spec Hspec)
        as [spec' [Hs [Hplain' Hsame']]].
      rewrite He. cbn [bind]. rewrite Hs. cbn [bind].
      destruct (same_object_facts spec' spec Hsame') as [Hn' Hd'].
      destruct (String.eqb (digest_of existing) (digest_of spec)) eqn:Hdigest.
      * exists None, (existing' :: rest). split; [reflexivity |]. split.
        -- split; [| reflexivity]. intros _. apply Exists_cons_hd.
           split; [exact Hname | apply String.eqb_eq; exact Hdigest].
        -- discriminate.
      * destruct (IH spec' Hplain') as [found [specs' [Hscan [Hnone Hsome]]]].
        rewrite Hscan. cbn [bind fst snd].
        exists found, (existing' :: specs'). split; [reflexivity |]. split.
        -- rewrite Hnone. split.
           ++ intros Hex. apply Exists_cons_tl.
              apply Exists_exists in Hex. destruct Hex as [e [Hin [Ha Hb]]].
              apply Exists_exists. exists e. split; [exact Hin |].
              split; [rewrite <- Hn'; exact Ha | rewrite <- Hd'; exact Hb].
           ++ intros Hex. inversion Hex as [e l [_ Hb] | e l Htl]; subst.
              ** apply String.eqb_eq in Hb. rewrite Hb in Hdigest. discriminate Hdigest.
              ** apply Exists_exists in Htl. destruct Htl as [e [Hin [Ha Hb]]].
                 apply Exists_exists. exists e. split; [exact Hin |].
                 split; [rewrite Hn'; exact Ha | rewrite Hd'; exact Hb].
        -- intros r Hr. unfold same_object in *. rewrite (Hsome r Hr). exact Hsame'.
    + destruct (IH spec Hspec) as [found [specs' [Hscan [Hnone Hsome]]]].
      rewrite Hscan. cbn [bind fst snd].
      exists found, (existing :: specs'). split; [reflexivity |]. split.
      * rewrite Hnone. split.
        -- intros Hex. apply Exists_cons_tl. exact Hex.
        -- intros Hex. inversion Hex as [e l [Ha _] | e l Htl]; subst.
           ++ rewrite Ha in Hname. discriminate Hname.
           ++ exact Htl.
      * exact Hsome.
Qed.

Lemma _load_parsed_plain (yaml : pyval) (filename : string) (spec : EnvSpec) :
  _load_parsed yaml filename = Ok spec -> plain spec.
Proof.
  unfold _load_parsed. intros H.
  apply bind_Ok in H. destruct H as [n [_ H]].
  apply bind_Ok in H. destruct H as [deps [_ H]].
  apply bind_Ok in H. destruct H as [chans [_ H]].
  destruct (fold_left _load_dep deps ([], [])) as [conda pip].
  injection H as <-. split; [reflexivity |]. intros h Hh. discriminate Hh.
Qed.

(** With known specs that have no parent, the check returns, and it
    returns "no out-of-sync spec" exactly when the file is not loaded or a
    known spec has the name and the hash of the loaded spec; otherwise it
    returns the loaded spec. *)
Lemma _find_out_of_sync_environment_yml_spec_plain
    (codecs_open_read : string -> result string)
    (_load_string : string -> result pyval)
    (project_specs : list EnvSpec) (filename : string) :
  Forall plain project_specs ->
  match _load_environment_yml codecs_open_read _load_string filename with
  | Raise e =>
      _find_out_of_sync_environment_yml_spec codecs_open_read _load_string
        project_specs filename = Raise e
  | Ok None =>
      _find_out_of_sync_environment_yml_spec codecs_open_read _load_string
        project_specs filename = Ok (None, project_specs)
  | Ok (Some spec) =>
      exists found specs',
        _find_out_of_sync_environment_yml_spec codecs_open_read _load_string
          project_specs filename = Ok (found, specs')
        /\ (found = None <-> Exists (in_sync_with spec) project_specs)
        /\ (forall r, found = Some r -> same_object r spec)
  end.
Proof.
  intros Hplain. unfold _find_out_of_sync_environment_yml_spec.
  destruct (_load_environment_yml codecs_open_read _load_string filename)
    as [[spec |] | e] eqn:Hload; cbn [bind]; try reflexivity.
  apply _scan_project_specs_plain; [exact Hplain |].
  unfold _load_environment_yml in Hload.
  destruct (bind (codecs_open_read filename) _load_string) as [yaml | e];
    [| destruct e; discriminate Hload].
  apply bind_Ok in Hload. destruct Hload as [spec' [Hparsed Heq]].
  injection Heq as ->. apply (_load_parsed_plain yaml filename). exact Hparsed.
Qed.

(** The scenario of the specification: the known spec [default] and a
    file that loads to the same name and hash are in sync; with other
    packages under the same name the loaded spec is the candidate. *)
Definition default_env : EnvSpec :=
  {| _name := PStr "default";
     _conda_packages := ["pandas"; "scipy"];
     _channels := ["conda-forge"];
     _pip_packages := [];
     _description := PNone;
     _channels_and_packages_hash := None;
     _inherit_from_name := PNone;
     _inherit_from := None |}.

Example known_default_in_sync :
  exists specs',
    _find_out_of_sync_environment_yml_spec default_file default_parser
      [default_env] "environment.yml" = Ok (None, specs').
Proof. eexists. vm_compute. reflexivity. Qed.

Example known_default_out_of_sync :
  exists candidate specs',
    _find_out_of_sync_environment_yml_spec default_file default_parser
      [tests_first_env] "environment.yml" = Ok (Some candidate, specs')
    /\ name candidate = PStr "default".
Proof. eexists. eexists. split; vm_compute; reflexivity. Qed.

(** * Further properties of the module *)

(** ** _combine_keeping_last_duplicate on two lists *)

Lemma filter_all {A : Type} (f : A -> bool) (l : list A) :
  (forall x, In x l -> f x = true) -> filter f l = l.
Proof.
  induction l as [| x l IH]; simpl; intros H; [reflexivity |].
  rewrite (H x (or_introl eq_refl)). rewrite IH; [reflexivity |].
  intros y Hy. apply H. right. exact Hy.
Qed.

Lemma filter_none {A : Type} (f : A -> bool) (l : list A) :
  (forall x, In x l -> f x = false) -> filter f l = [].
Proof.
  induction l as [| x l IH]; simpl; intros H; [reflexivity |].
  rewrite (H x (or_introl eq_refl)). apply IH.
  intros y Hy. apply H. right. exact Hy.
Qed.

Lemma filter_twice {A : Type} (f : A -> bool) (l : list A) :
  filter f (filter f l) = filter f l.
Proof.
  apply filter_all. intros x Hx. apply filter_In in Hx. apply Hx.
Qed.


(** Combining a result once more with the same second list changes
    nothing, for any key function whose keys equal themselves. *)
Theorem _combine_twice {A K : Type}
    (key_eqb : K -> K -> bool) (key_func : A -> K) (items1 r : pyseq A) (l2 : list A) :
  (forall k, key_eqb k k = true) ->
  _combine_keeping_last_duplicate key_eqb key_func items1 (PyList l2) = Ok r ->
  _combine_keeping_last_duplicate key_eqb key_func r (PyList l2) = Ok r.
Proof.
  intros Hrefl. rewrite !_combine_with_list. intros H. injection H as <-.
  simpl. rewrite filter_app, filter_twice.
  rewrite (filter_none _ l2), app_nil_r; [reflexivity |].
  intros x Hx. apply negb_false_iff. unfold key_in. apply existsb_exists.
  exists (key_func x). split; [apply in_map; exact Hx | apply Hrefl].
Qed.

Lemma _combine_twice_witness :
  _combine_keeping_last_duplicate String.eqb default_key
    (PyTuple ["numpy"; "scipy"; "pandas"]) (PyList ["pandas"; "scipy"])
  = Ok (PyTuple ["numpy"; "pandas"; "scipy"])
  /\ _combine_keeping_last_duplicate String.eqb default_key
       (PyTuple ["numpy"; "pandas"; "scipy"]) (PyList ["pandas"; "scipy"])
     = Ok (PyTuple ["numpy"; "pandas"; "scipy"]).
Proof.
  split; [reflexivity |].
  apply (_combine_twice String.eqb default_key
           (PyTuple ["numpy"; "scipy"; "pandas"]) (PyTuple ["numpy"; "pandas"; "scipy"])
           ["pandas"; "scipy"] String.eqb_refl).
  reflexivity.
Defined.

(** Two sequences of strings without a repeated entry combine into a
    sequence without a repeated entry. *)
Theorem _combine_no_duplicate (items1 r : pyseq string) (l2 : list string) :
  NoDup (items items1) -> NoDup l2 ->
  _combine_keeping_last_duplicate String.eqb default_key items1 (PyList l2) = Ok r ->
  NoDup (items r)
  /\ (forall x, In x (items r) <-> In x (items items1) \/ In x l2).
Proof.
  intros H1 H2. rewrite _combine_with_list. intros H. injection H as <-.
  unfold default_key. rewrite map_id. simpl. split.
  - apply NoDup_app.
    + apply NoDup_filter. exact H1.
    + exact H2.
    + intros x Hx Hx2. apply filter_In in Hx. destruct Hx as [_ Hx].
      apply negb_true_iff in Hx.
      rewrite (proj2 (key_in_string x l2) Hx2) in Hx. discriminate Hx.
  - intros x. rewrite in_app_iff, filter_In. split.
    + intros [[Hx _] | Hx]; [left | right]; assumption.
    + intros [Hx | Hx]; [| right; exact Hx].
      destruct (key_in String.eqb x l2) eqn:Hk.
      * right. apply key_in_string. exact Hk.
      * left. split; [exact Hx | reflexivity].
Qed.

Lemma _combine_no_duplicate_witness :
  NoDup ["numpy"; "pandas"; "scipy"]
  /\ forall x, In x ["numpy"; "pandas"; "scipy"]
               <-> In x ["numpy"; "scipy"; "pandas"] \/ In x ["pandas"; "scipy"].
Proof.
  apply (_combine_no_duplicate
           (PyTuple ["numpy"; "scipy"; "pandas"]) (PyTuple ["numpy"; "pandas"; "scipy"])
           ["pandas"; "scipy"]).
  - repeat constructor; simpl; intuition discriminate.
  - repeat constructor; simpl; intuition discriminate.
  - reflexivity.
Defined.

(** ** Specs with a parent object *)

(** [diff_from] raises [TypeError] as soon as one of the two specs has a
    parent object, whichever it is and whatever [ndiff] would print. *)
Theorem diff_from_parent_raises
    (ndiff : list string -> list string -> list string) (self old parent : EnvSpec) :
  _inherit_from self = Some parent \/ _inherit_from old = Some parent ->
  diff_from ndiff self old = Raise TypeError.
Proof.
  intros [Hself | Hold]; unfold diff_from, channels.
  - rewrite (_get_inherited_with_parent _ self parent Hself).
    destruct (_get_inherited_outcome attr_channels old) as [H | H]; rewrite H; reflexivity.
  - rewrite (_get_inherited_with_parent _ old parent Hold). reflexivity.
Qed.

Lemma diff_from_parent_raises_witness :
  diff_from lcs_ndiff base_env child_env = Raise TypeError
  /\ diff_from lcs_ndiff child_env base_env = Raise TypeError.
Proof.
  split.
  - apply (diff_from_parent_raises lcs_ndiff base_env child_env base_env).
    right. reflexivity.
  - apply (diff_from_parent_raises lcs_ndiff child_env base_env base_env).
    left. reflexivity.
Defined.

(** ** The hash of a spec without a parent object *)

(** The cache is transparent: the first read computes the hash and stores
    it, the second read returns the stored value and leaves the object as
    it is, and both are the value of a fresh computation. *)
Theorem channels_and_packages_hash_memoized (s : EnvSpec) :
  plain s ->
  exists h s',
    channels_and_packages_hash s = Ok (h, s')
    /\ channels_and_packages_hash s' = Ok (h, s')
    /\ _channels_and_packages_hash s' = Some h
    /\ fresh_hash s = Ok h
    /\ same_object s' s.
Proof.
  intros [Hroot Hcache]. unfold channels_and_packages_hash.
  destruct (_channels_and_packages_hash s) as [c |] eqn:Hc.
  - exists c, s. rewrite Hc. repeat split; try reflexivity.
    apply Hcache. exact Hc.
  - rewrite (fresh_hash_no_parent s Hroot). cbn [bind].
    eexists. eexists. split; [reflexivity |]. cbn [set_hash_cache _channels_and_packages_hash].
    repeat split; reflexivity.
Qed.

Lemma channels_and_packages_hash_memoized_witness :
  exists h s',
    channels_and_packages_hash base_env = Ok (h, s')
    /\ channels_and_packages_hash s' = Ok (h, s')
    /\ _channels_and_packages_hash s' = Some h
    /\ fresh_hash base_env = Ok h
    /\ same_object s' base_env.
Proof.
  apply (channels_and_packages_hash_memoized base_env).
  split; [reflexivity | intros h Hh; discriminate Hh].
Defined.

(** The hash reads the three sequences and nothing else: two specs with
    the same conda packages, pip packages and channels have the same hash,
    whatever their names, descriptions and parent names. *)
Theorem hash_value_ignores_name (s1 s2 : EnvSpec) :
  plain s1 -> plain s2 ->
  _conda_packages s1 = _conda_packages s2 ->
  _pip_packages s1 = _pip_packages s2 ->
  _channels s1 = _channels s2 ->
  hash_value s1 = hash_value s2
  /\ exists h, hash_value s1 = Ok h.
Proof.
  intros [R1 C1] [R2 C2] Hconda Hpip Hchans.
  rewrite (hash_value_no_parent s1 R1 C1), (hash_value_no_parent s2 R2 C2).
  rewrite Hconda, Hpip, Hchans. split; [reflexivity | eexists; reflexivity].
Qed.

Lemma hash_value_ignores_name_witness :
  hash_value default_env
  = hash_value (Build_EnvSpec (PStr "renamed") ["pandas"; "scipy"] ["conda-forge"] []
                  (PStr "the same packages") None (PStr "base") None)
  /\ exists h, hash_value default_env = Ok h.
Proof.
  apply hash_value_ignores_name; try reflexivity;
    (split; [reflexivity | intros h Hh; discriminate Hh]).
Defined.

(** Nothing separates the three sequences in the digest: the last conda
    package can become the first pip package, and the last pip package
    the first channel, without a change of the hash. *)
Theorem hash_value_across_sequences (s1 s2 : EnvSpec) (x : string) :
  plain s1 -> plain s2 ->
  (_conda_packages s1 = _conda_packages s2 ++ [x]
   /\ _pip_packages s2 = x :: _pip_packages s1
   /\ _channels s1 = _channels s2)
  \/ (_conda_packages s1 = _conda_packages s2
      /\ _pip_packages s1 = _pip_packages s2 ++ [x]
      /\ _channels s2 = x :: _channels s1) ->
  hash_value s1 = hash_value s2.
Proof.
  intros [R1 C1] [R2 C2] H. apply hash_value_same_bytes; try assumption.
  unfold hashed_bytes.
  destruct H as [[Hc [Hp Hch]] | [Hc [Hp Hch]]]; rewrite Hc, Hp, Hch.
  - rewrite map_app, concat_app. simpl. rewrite app_nil_r, <- !app_assoc. reflexivity.
  - rewrite map_app, concat_app. simpl. rewrite app_nil_r, <- !app_assoc. reflexivity.
Qed.

Lemma hash_value_across_sequences_witness :
  hash_value (Build_EnvSpec (PStr "env") ["numpy"; "flask"] [] [] PNone None PNone None)
  = hash_value (Build_EnvSpec (PStr "env") ["numpy"] [] ["flask"] PNone None PNone None).
Proof.
  apply (hash_value_across_sequences
           (Build_EnvSpec (PStr "env") ["numpy"; "flask"] [] [] PNone None PNone None)
           (Build_EnvSpec (PStr "env") ["numpy"] [] ["flask"] PNone None PNone None)
           "flask");
    try (split; [reflexivity | intros h Hh; discriminate Hh]).
  left. repeat split.
Defined.

(** ** to_json of a spec without a parent object *)

(** The entry [to_json] appends for the pip packages. *)
Definition pip_entry (pip : list string) : list pyval :=
  match pip with
  | [] => []
  | _ => [PDict [("pip", PList (map PStr pip))]]
  end.

(** The mapping has the own conda packages followed by one [pip] entry
    when there are pip packages, the own channels, and the key
    [inherit_from] exactly when the spec has a parent name; it has no
    other key. *)
Theorem to_json_entries (s : EnvSpec) :
  _inherit_from s = None ->
  exists j,
    to_json s = Ok (PDict j)
    /\ dict_lookup "packages" j
       = Some (PList (map PStr (_conda_packages s) ++ pip_entry (_pip_packages s)))
    /\ dict_lookup "channels" j = Some (PList (map PStr (_channels s)))
    /\ dict_lookup "inherit_from" j
       = (if is_none (_inherit_from_name s) then None else Some (_inherit_from_name s))
    /\ (forall k, In k (map fst j) -> k = "packages" \/ k = "channels" \/ k = "inherit_from").
Proof.
  intros Hroot. rewrite (to_json_no_parent s Hroot). eexists. split; [reflexivity |].
  cbv zeta. unfold pip_entry.
  destruct (is_none (_inherit_from_name s)); destruct (_pip_packages s); simpl;
    repeat split; try reflexivity; intros k Hk; simpl in Hk; intuition.
Qed.

Lemma to_json_entries_witness :
  exists j,
    to_json base_env = Ok (PDict j)
    /\ dict_lookup "packages" j
       = Some (PList [PStr "numpy"; PStr "pandas"; PDict [("pip", PList [PStr "flask"])]])
    /\ dict_lookup "channels" j = Some (PList [PStr "defaults"])
    /\ dict_lookup "inherit_from" j = None
    /\ (forall k, In k (map fst j) -> k = "packages" \/ k = "channels" \/ k = "inherit_from").
Proof. exact (to_json_entries base_env eq_refl). Defined.

Lemma fold_left__load_pip_dep_strings (l pip : list string) :
  fold_left _load_pip_dep (map PStr l) pip = pip ++ l.
Proof.
  revert pip. induction l as [| x l IH]; intros pip; simpl.
  - rewrite app_nil_r. reflexivity.
  - rewrite IH, <- app_assoc. reflexivity.
Qed.

Lemma fold_left__load_channel_strings (l chans : list string) :
  fold_left _load_channel (map PStr l) chans = chans ++ l.
Proof.
  revert chans. induction l as [| x l IH]; intros chans; simpl.
  - rewrite app_nil_r. reflexivity.
  - rewrite IH, <- app_assoc. reflexivity.
Qed.

Lemma fold_left__load_dep_strings (l conda pip : list string) :
  fold_left _load_dep (map PStr l) (conda, pip) = (conda ++ l, pip).
Proof.
  revert conda. induction l as [| x l IH]; intros conda; simpl.
  - rewrite app_nil_r. reflexivity.
  - rewrite IH, <- app_assoc. reflexivity.
Qed.

(** What [to_json] writes, the loader reads back: given as
    [dependencies] and [channels] of a document, the two lists of the
    mapping load into a spec with the conda packages, the pip packages and
    the channels of the spec written. *)
Theorem to_json_read_back (s : EnvSpec) (filename : string) :
  _inherit_from s = None ->
  truthy (name s) = true ->
  exists j packages chans,
    to_json s = Ok (PDict j)
    /\ dict_lookup "packages" j = Some packages
    /\ dict_lookup "channels" j = Some chans
    /\ _load_parsed
         (PDict [("name", name s); ("dependencies", packages); ("channels", chans)])
         filename
       = Ok (Build_EnvSpec (name s) (_conda_packages s) (_channels s) (_pip_packages s)
               PNone None PNone None).
Proof.
  intros Hroot Hname. destruct (to_json_entries s Hroot) as [j [Hj [Hp [Hc _]]]].
  exists j. eexists. eexists. split; [exact Hj |]. split; [exact Hp |]. split; [exact Hc |].
  unfold _load_parsed. rewrite _load_name_mapping.
  cbn [dict_lookup String.eqb Ascii.eqb Bool.eqb]. rewrite Hname.
  unfold _load_list, py_get. cbn [dict_lookup String.eqb Ascii.eqb Bool.eqb bind].
  rewrite fold_left_app, fold_left__load_dep_strings, fold_left__load_channel_strings.
  unfold pip_entry. destruct (_pip_packages s) as [| p ps] eqn:Hpip.
  - reflexivity.
  - cbn [fold_left _load_dep dict_lookup String.eqb Ascii.eqb Bool.eqb].
    rewrite fold_left__load_pip_dep_strings. reflexivity.
Qed.

Lemma to_json_read_back_witness :
  exists j packages chans,
    to_json base_env = Ok (PDict j)
    /\ dict_lookup "packages" j = Some packages
    /\ dict_lookup "channels" j = Some chans
    /\ _load_parsed
         (PDict [("name", PStr "base"); ("dependencies", packages); ("channels", chans)])
         "environment.yml"
       = Ok base_env.
Proof. exact (to_json_read_back base_env "environment.yml" eq_refl eq_refl). Defined.

(** ** What the loader keeps of a document *)

(** The strings of a sequence, in their order. *)
Definition strings_of (l : list pyval) : list string :=
  flat_map (fun v => match v with PStr s => [s] | _ => [] end) l.

(** The pip packages one entry of [dependencies] brings. *)
Definition pip_strings (dep : pyval) : list string :=
  match dep with
  | PDict d =>
      match dict_lookup "pip" d with
      | Some (PList pips) => strings_of pips
      | _ => []
      end
  | _ => []
  end.

(** The sequence under [key], empty when the key is missing or bound to
    something that is not a sequence. *)
Definition entries (d : list (string * pyval)) (key : string) : list pyval :=
  match dict_lookup key d with
  | Some (PList l) => l
  | _ => []
  end.

Lemma fold_left__load_pip_dep (l : list pyval) (pip : list string) :
  fold_left _load_pip_dep l pip = pip ++ strings_of l.
Proof.
  revert pip. induction l as [| v l IH]; intros pip; simpl.
  - rewrite app_nil_r. reflexivity.
  - rewrite IH. destruct v; simpl; try reflexivity.
    rewrite <- app_assoc. reflexivity.
Qed.

Lemma fold_left__load_channel (l : list pyval) (chans : list string) :
  fold_left _load_channel l chans = chans ++ strings_of l.
Proof.
  revert chans. induction l as [| v l IH]; intros chans; simpl.
  - rewrite app_nil_r. reflexivity.
  - rewrite IH. destruct v; simpl; try reflexivity.
    rewrite <- app_assoc. reflexivity.
Qed.

Lemma fold_left__load_dep (l : list pyval) (conda pip : list string) :
  fold_left _load_dep l (conda, pip)
  = (conda ++ strings_of l, pip ++ flat_map pip_strings l).
Proof.
  revert conda pip. induction l as [| v l IH]; intros conda pip.
  - simpl. rewrite !app_nil_r. reflexivity.
  - change (fold_left _load_dep (v :: l) (conda, pip))
      with (fold_left _load_dep l (_load_dep (conda, pip) v)).
    change (strings_of (v :: l))
      with (match v with PStr s => [s] | _ => [] end ++ strings_of l).
    change (flat_map pip_strings (v :: l))
      with (pip_strings v ++ flat_map pip_strings l).
    destruct v as [| b | z | s | l' | d]; cbn [_load_dep pip_strings];
      try (rewrite IH; reflexivity).
    + rewrite IH, <- app_assoc. reflexivity.
    + destruct (dict_lookup "pip" d) as [[| b | z | s | pips | d'] |];
        try (rewrite IH; reflexivity).
      rewrite IH, fold_left__load_pip_dep, <- app_assoc. reflexivity.
Qed.

Lemma _load_parsed_sequences (d : list (string * pyval)) (filename : string) (spec : EnvSpec) :
  _load_parsed (PDict d) filename = Ok spec ->
  _conda_packages spec = strings_of (entries d "dependencies")
  /\ _pip_packages spec = flat_map pip_strings (entries d "dependencies")
  /\ _channels spec = strings_of (entries d "channels").
Proof.
  unfold _load_parsed. intros H.
  apply bind_Ok in H. destruct H as [n [_ H]].
  unfold _load_list, py_get in H. cbn [bind] in H.
  rewrite fold_left__load_dep, fold_left__load_channel in H.
  injection H as <-. unfold entries. simpl.
  destruct (dict_lookup "dependencies" d) as [[| b | z | s | l | d'] |];
    destruct (dict_lookup "channels" d) as [[| b' | z' | s' | l' | d''] |];
    repeat split; reflexivity.
Qed.

(** The loaded spec has, in the order of the document, the strings of
    [dependencies] as conda packages, the strings of every [pip] list
    inside [dependencies] as pip packages and the strings of [channels] as
    channels; entries of another shape are left out, and a missing or
    ill-typed [dependencies] or [channels] counts as empty. *)
Theorem _load_environment_yml_sequences
    (codecs_open_read : string -> result string)
    (_load_string : string -> result pyval)
    (filename contents : string) (d : list (string * pyval)) (spec : EnvSpec) :
  codecs_open_read filename = Ok contents ->
  _load_string contents = Ok (PDict d) ->
  _load_environment_yml codecs_open_read _load_string filename = Ok (Some spec) ->
  _conda_packages spec = strings_of (entries d "dependencies")
  /\ _pip_packages spec = flat_map pip_strings (entries d "dependencies")
  /\ _channels spec = strings_of (entries d "channels").
Proof.
  intros Hread Hparse.
  rewrite (_load_environment_yml_parsed _ _ _ _ _ Hread Hparse). intros H.
  apply bind_Ok in H. destruct H as [spec' [Hspec Heq]]. injection Heq as ->.
  apply (_load_parsed_sequences d filename). exact Hspec.
Qed.

(** The document of the specification, with entries of other shapes. *)
Definition foo_document : list (string * pyval) :=
  [("name", PStr "foo");
   ("dependencies",
    PList [PStr "numpy"; PInt 3; PDict [("pip", PList [PStr "flask"; PNone])];
           PDict [("conda", PList [PStr "x"])]; PList [PStr "nested"]]);
   ("channels", PList [PStr "conda-forge"; PBool true])].

Definition foo_env : EnvSpec :=
  Build_EnvSpec (PStr "foo") ["numpy"] ["conda-forge"] ["flask"] PNone None PNone None.

Lemma _load_environment_yml_sequences_witness :
  _conda_packages foo_env = ["numpy"]
  /\ _pip_packages foo_env = ["flask"]
  /\ _channels foo_env = ["conda-forge"].
Proof.
  exact (_load_environment_yml_sequences
           (fun _ => Ok "foo") (fun _ => Ok (PDict foo_document))
           "environment.yml" "foo" foo_document foo_env eq_refl eq_refl eq_refl).
Defined.

(** "Not loaded" means exactly that reading or parsing raised [IOError]
    or [YAMLError]: a text that was parsed never gives [None]. *)
Theorem _load_environment_yml_None
    (codecs_open_read : string -> result string)
    (_load_string : string -> result pyval) (filename : string) :
  _load_environment_yml codecs_open_read _load_string filename = Ok None
  <-> exists e,
        (e = IOError \/ e = YAMLError)
        /\ (codecs_open_read filename = Raise e
            \/ exists contents,
                 codecs_open_read filename = Ok contents
                 /\ _load_string contents = Raise e).
Proof.
  unfold _load_environment_yml. split.
  - destruct (codecs_open_read filename) as [contents | e] eqn:Hread; cbn [bind].
    + destruct (_load_string contents) as [yaml | e] eqn:Hparse.
      * intros H. destruct (_load_parsed yaml filename); discriminate H.
      * intros H. exists e. split.
        -- destruct e; try discriminate H; [left | right]; reflexivity.
        -- right. exists contents. split; [reflexivity | exact Hparse].
    + intros H. exists e. split.
      * destruct e; try discriminate H; [left | right]; reflexivity.
      * left. reflexivity.
  - intros [e [He [Hread | [contents [Hread Hparse]]]]]; rewrite Hread; cbn [bind].
    + destruct He as [-> | ->]; reflexivity.
    + rewrite Hparse. destruct He as [-> | ->]; reflexivity.
Qed.

Definition is_mapping (v : pyval) : bool :=
  match v with PDict _ => true | _ => false end.

(** A document that is not a mapping (a sequence, a scalar, null) is
    neither loaded nor reported as "not loaded": the loader raises
    [TypeError] or [AttributeError], and [TypeError] for null, booleans
    and numbers. *)
Theorem _load_environment_yml_not_mapping
    (codecs_open_read : string -> result string)
    (_load_string : string -> result pyval)
    (filename contents : string) (yaml : pyval) :
  codecs_open_read filename = Ok contents ->
  _load_string contents = Ok yaml ->
  is_mapping yaml = false ->
  (_load_environment_yml codecs_open_read _load_string filename = Raise TypeError
   \/ _load_environment_yml codecs_open_read _load_string filename = Raise AttributeError)
  /\ (is_string yaml = false -> (forall l, yaml <> PList l) ->
      _load_environment_yml codecs_open_read _load_string filename = Raise TypeError).
Proof.
  intros Hread Hparse Hnot.
  rewrite (_load_environment_yml_parsed _ _ _ _ _ Hread Hparse).
  unfold _load_parsed, _load_name, _load_list.
  destruct yaml as [| b | z | s | l | d];
    cbn [bind py_contains py_getitem py_get];
    try (split; [left; reflexivity | intros; reflexivity]);
    try discriminate Hnot.
  - split; [| intros H; discriminate H].
    destruct (str_contains "name" s);
      cbn [bind py_contains py_getitem py_get truthy negb]; [left; reflexivity |].
    destruct (str_contains "prefix" s);
      cbn [bind py_contains py_getitem py_get truthy negb];
      [left | right]; reflexivity.
  - split; [| intros _ H; exfalso; apply (H l); reflexivity].
    destruct (existsb (py_eqb (PStr "name")) l);
      cbn [bind py_contains py_getitem py_get truthy negb]; [left; reflexivity |].
    destruct (existsb (py_eqb (PStr "prefix")) l);
      cbn [bind py_contains py_getitem py_get truthy negb];
      [left | right]; reflexivity.
Qed.

Lemma _load_environment_yml_not_mapping_witness :
  _load_environment_yml (fun _ => Ok "- numpy") (fun _ => Ok (PList [PStr "numpy"]))
    "environment.yml" = Raise AttributeError
  /\ _load_environment_yml (fun _ => Ok "~") (fun _ => Ok PNone)
       "environment.yml" = Raise TypeError.
Proof.
  split.
  - destruct (proj1 (_load_environment_yml_not_mapping
                       (fun _ => Ok "- numpy") (fun _ => Ok (PList [PStr "numpy"]))
                       "environment.yml" "- numpy" (PList [PStr "numpy"])
                       eq_refl eq_refl eq_refl)) as [H | H].
    + discriminate H.
    + exact H.
  - apply (proj2 (_load_environment_yml_not_mapping
                    (fun _ => Ok "~") (fun _ => Ok PNone)
                    "environment.yml" "~" PNone eq_refl eq_refl eq_refl)).
    + reflexivity.
    + intros l. discriminate.
Defined.

(** The loader reads four keys.  A document loads to the same result,
    spec or exception, with and without any other key. *)
Theorem _load_parsed_ignores_other_keys
    (d : list (string * pyval)) (filename key : string) :
  ~ In key ["name"; "prefix"; "dependencies"; "channels"] ->
  _load_parsed (PDict (dict_remove key d)) filename = _load_parsed (PDict d) filename.
Proof.
  intros Hkey.
  assert (Hl : forall k, In k ["name"; "prefix"; "dependencies"; "channels"] ->
               dict_lookup k (dict_remove key d) = dict_lookup k d).
  { intros k Hk. apply dict_lookup_remove_other.
    destruct (String.eqb k key) eqn:E; [| reflexivity].
    apply String.eqb_eq in E. subst k. contradiction. }
  unfold _load_parsed. rewrite !_load_name_mapping.
  unfold name_from_prefix, _load_list, py_get.
  rewrite (Hl "name"), (Hl "prefix"), (Hl "dependencies"), (Hl "channels");
    simpl; auto 6.
Qed.

Lemma _load_parsed_ignores_other_keys_witness :
  _load_parsed (PDict default_document) "environment.yml"
  = _load_parsed (PDict (("version", PInt 2) :: default_document)) "environment.yml".
Proof.
  apply (_load_parsed_ignores_other_keys
           (("version", PInt 2) :: default_document) "environment.yml" "version").
  simpl. intuition discriminate.
Defined.

(** A loaded spec can be used: it has no parent and no parent name, its
    description is its name, and its hash and its [to_json] are computed
    without an exception. *)
Theorem _load_parsed_usable (yaml : pyval) (filename : string) (spec : EnvSpec) :
  _load_parsed yaml filename = Ok spec ->
  inherit_from spec = None
  /\ inherit_from_name spec = PNone
  /\ description spec = name spec
  /\ (exists h spec', channels_and_packages_hash spec = Ok (h, spec'))
  /\ (exists j, to_json spec = Ok (PDict j)).
Proof.
  intros H. pose proof (_load_parsed_plain yaml filename spec H) as Hplain.
  assert (Hfields : _inherit_from_name spec = PNone /\ _description spec = PNone).
  { unfold _load_parsed in H.
    apply bind_Ok in H. destruct H as [n [_ H]].
    apply bind_Ok in H. destruct H as [deps [_ H]].
    apply bind_Ok in H. destruct H as [chans [_ H]].
    destruct (fold_left _load_dep deps ([], [])) as [conda pip].
    injection H as <-. split; reflexivity. }
  destruct Hfields as [Hifn Hdescr]. destruct Hplain as [Hroot Hcache].
  split; [exact Hroot |]. split; [exact Hifn |].
  split; [unfold description; rewrite Hdescr; reflexivity |].
  split.
  - destruct (channels_and_packages_hash_plain spec (conj Hroot Hcache)) as [s' [Hs _]].
    eexists. eexists. exact Hs.
  - destruct (to_json_entries spec Hroot) as [j [Hj _]]. exists j. exact Hj.
Qed.

Lemma _load_parsed_usable_witness :
  inherit_from foo_env = None
  /\ inherit_from_name foo_env = PNone
  /\ description foo_env = name foo_env
  /\ (exists h spec', channels_and_packages_hash foo_env = Ok (h, spec'))
  /\ (exists j, to_json foo_env = Ok (PDict j)).
Proof.
  exact (_load_parsed_usable (PDict foo_document) "environment.yml" foo_env eq_refl).
Defined.

(** ** The name of a loaded spec *)

Lemma prefix_slash (c : ascii) (r : string) :
  String.prefix "/" (String c r) = Ascii.eqb c "/".
Proof.
  cbn [String.prefix]. destruct (ascii_dec "/" c) as [<- | Hneq].
  - destruct r; reflexivity.
  - symmetry. apply Ascii.eqb_neq. congruence.
Qed.

Lemma str_contains_slash_cons (c : ascii) (r : string) :
  str_contains "/" (String c r) = Ascii.eqb c "/" || str_contains "/" r.
Proof.
  change (str_contains "/" (String c r))
    with (String.prefix "/" (String c r) || str_contains "/" r).
  rewrite prefix_slash. reflexivity.
Qed.

(** A base name has no slash. *)
Lemma basename_no_slash (p : string) : str_contains "/" (basename p) = false.
Proof.
  induction p as [| c r IH]; [reflexivity |].
  cbn [basename]. destruct (str_contains "/" r) eqn:Hr; [exact IH |].
  destruct (Ascii.eqb c "/") eqn:Hc; [exact Hr |].
  rewrite str_contains_slash_cons, Hc, Hr. reflexivity.
Qed.

Lemma _load_parsed_name (yaml : pyval) (filename : string) (spec : EnvSpec) :
  _load_parsed yaml filename = Ok spec ->
  exists d, yaml = PDict d /\ name spec = fallback_name d filename.
Proof.
  intros Hspec.
  assert (Hdict : exists d, yaml = PDict d).
  { destruct yaml as [| b | z | s | l | d]; try (eexists; reflexivity);
      match type of Hspec with
      | _load_parsed ?y _ = _ =>
          destruct (_load_parsed_not_mapping y filename) as [e He];
          [intros d0; discriminate | rewrite He in Hspec; discriminate Hspec]
      end. }
  destruct Hdict as [d ->]. exists d. split; [reflexivity |].
  pose proof (_load_parsed_mapping d filename) as Hm.
  destruct (_load_name (PDict d) filename) as [n | e] eqn:Hn.
  - destruct Hm as [spec0 [Hspec0 [Hname _]]].
    rewrite Hspec0 in Hspec. injection Hspec as <-.
    rewrite Hname. apply (_load_name_fallback d filename). exact Hn.
  - rewrite Hm in Hspec. discriminate Hspec.
Qed.

(** A loaded spec has a name: unless the path of the file ends with a
    slash (or is empty), the name is truthy; and when it does not come from
    the [name] field it is a string without a slash, a single component
    of a path. *)
Theorem _load_parsed_name_usable (yaml : pyval) (filename : string) (spec : EnvSpec) :
  _load_parsed yaml filename = Ok spec ->
  (basename filename <> "" -> truthy (name spec) = true)
  /\ (forall d, yaml = PDict d ->
      (forall v, dict_lookup "name" d = Some v -> truthy v = false) ->
      exists n, name spec = PStr n /\ str_contains "/" n = false).
Proof.
  intros Hspec. destruct (_load_parsed_name yaml filename spec Hspec) as [d [-> Hname]].
  rewrite Hname. unfold fallback_name. split.
  - intros Hfile.
    assert (Hpath : truthy (PStr (basename filename)) = true).
    { simpl. apply negb_true_iff. apply String.eqb_neq. exact Hfile. }
    assert (Hprefix :
      truthy match dict_lookup "prefix" d with
             | Some (PStr p) =>
                 if String.eqb (basename p) "" then PStr (basename filename)
                 else PStr (basename p)
             | _ => PStr (basename filename)
             end = true).
    { destruct (dict_lookup "prefix" d) as [[| b | z | p | l | d'] |]; try exact Hpath.
      destruct (String.eqb (basename p) "") eqn:Hp; [exact Hpath |].
      simpl. rewrite Hp. reflexivity. }
    destruct (dict_lookup "name" d) as [v |]; [| exact Hprefix].
    destruct (truthy v) eqn:Hv; [exact Hv | exact Hprefix].
  - intros d0 Hd Hfalsy. injection Hd as <-.
    assert (Hprefix :
      exists n,
        match dict_lookup "prefix" d with
        | Some (PStr p) =>
            if String.eqb (basename p) "" then PStr (basename filename)
            else PStr (basename p)
        | _ => PStr (basename filename)
        end = PStr n /\ str_contains "/" n = false).
    { destruct (dict_lookup "prefix" d) as [[| b | z | p | l | d'] |];
        try (eexists; split; [reflexivity | apply basename_no_slash]).
      destruct (String.eqb (basename p) "");
        eexists; split; try reflexivity; apply basename_no_slash. }
    destruct (dict_lookup "name" d) as [v |]; [| exact Hprefix].
    rewrite (Hfalsy v eq_refl). exact Hprefix.
Qed.

Lemma _load_parsed_name_usable_witness :
  exists spec,
    _load_parsed (PDict [("prefix", PStr "/opt/envs/myenv")]) "/project/environment.yml"
      = Ok spec
    /\ truthy (name spec) = true
    /\ exists n, name spec = PStr n /\ str_contains "/" n = false.
Proof.
  eexists. split; [reflexivity |].
  destruct (_load_parsed_name_usable
              (PDict [("prefix", PStr "/opt/envs/myenv")]) "/project/environment.yml"
              _ eq_refl) as [Htruthy Hslash].
  split.
  - apply Htruthy. discriminate.
  - apply (Hslash [("prefix", PStr "/opt/envs/myenv")] eq_refl).
    intros v Hv. discriminate Hv.
Defined.

(** [prefix] is looked at only when [name] gives no name: a truthy name
    is taken whatever [prefix] holds, and without one a truthy [prefix]
    that is not a string makes the loader raise [TypeError]. *)
Theorem _load_parsed_prefix_not_text
    (d : list (string * pyval)) (filename : string) (prefix : pyval) :
  dict_lookup "prefix" d = Some prefix ->
  truthy prefix = true ->
  is_string prefix = false ->
  match dict_lookup "name" d with
  | Some v =>
      if truthy v
      then exists spec, _load_parsed (PDict d) filename = Ok spec /\ name spec = v
      else _load_parsed (PDict d) filename = Raise TypeError
  | None => _load_parsed (PDict d) filename = Raise TypeError
  end.
Proof.
  intros Hprefix Htruthy Htext.
  pose proof (_load_parsed_mapping d filename) as Hm.
  rewrite _load_name_mapping in Hm. unfold name_from_prefix in Hm.
  rewrite Hprefix, Htruthy in Hm.
  destruct (dict_lookup "name" d) as [v |].
  - destruct (truthy v).
    + destruct Hm as [spec [Hspec [Hname _]]]. exists spec. split; assumption.
    + destruct prefix; try discriminate Htext; exact Hm.
  - destruct prefix; try discriminate Htext; exact Hm.
Qed.

Lemma _load_parsed_prefix_not_text_witness :
  _load_parsed (PDict [("prefix", PInt 3)]) "environment.yml" = Raise TypeError
  /\ exists spec,
       _load_parsed (PDict [("name", PStr "foo"); ("prefix", PInt 3)]) "environment.yml"
         = Ok spec
       /\ name spec = PStr "foo".
Proof.
  split.
  - exact (_load_parsed_prefix_not_text [("prefix", PInt 3)] "environment.yml" (PInt 3)
             eq_refl eq_refl eq_refl).
  - exact (_load_parsed_prefix_not_text
             [("name", PStr "foo"); ("prefix", PInt 3)] "environment.yml" (PInt 3)
             eq_refl eq_refl eq_refl).
Defined.

(** ** The out-of-sync check and the known specs *)

(** The hash is compared only under equal names.  When no known spec has
    the name of the loaded spec, the check returns the loaded spec as it
    is and touches no known spec, even a known spec whose hash cannot be
    computed. *)
Theorem _scan_project_specs_new_name (project_specs : list EnvSpec) (spec : EnvSpec) :
  Forall (fun existing => py_eqb (name existing) (name spec) = false) project_specs ->
  _scan_project_specs project_specs spec = Ok (Some spec, project_specs).
Proof.
  induction 1 as [| existing rest Hname Hrest IH]; [reflexivity |].
  cbn [_scan_project_specs]. rewrite Hname, IH. reflexivity.
Qed.

Lemma _scan_project_specs_new_name_witness :
  _scan_project_specs [child_env; default_env] foo_env
  = Ok (Some foo_env, [child_env; default_env]).
Proof.
  apply _scan_project_specs_new_name. repeat constructor.
Defined.

(** With known specs that have no parent, the check leaves every known
    spec the object it was: the only change it makes is to fill hash
    caches, with the right hash. *)
Theorem _scan_project_specs_keeps_specs (project_specs : list EnvSpec) :
  Forall plain project_specs ->
  forall spec, plain spec ->
  exists found specs',
    _scan_project_specs project_specs spec = Ok (found, specs')
    /\ Forall2 same_object specs' project_specs
    /\ Forall plain specs'.
Proof.
  induction 1 as [| existing rest Hexisting Hrest IH]; intros spec Hspec.
  - exists (Some spec), []. repeat split; constructor.
  - assert (Hsame : Forall2 same_object rest rest).
    { clear. induction rest; constructor; [reflexivity | assumption]. }
    cbn [_scan_project_specs].
    destruct (py_eqb (name existing) (name spec)).
    + destruct (channels_and_packages_hash_plain existing Hexisting)
        as [existing' [He [Hplain_e Hsame_e]]].
      destruct (channels_and_packages_hash_plain spec Hspec)
        as [spec' [Hs [Hplain_s _]]].
      rewrite He. cbn [bind]. rewrite Hs. cbn [bind].
      destruct (String.eqb (digest_of existing) (digest_of spec)).
      * exists None, (existing' :: rest). split; [reflexivity |]. split.
        -- constructor; assumption.
        -- constructor; assumption.
      * destruct (IH spec' Hplain_s) as [found [specs' [Hscan [H2 Hp]]]].
        rewrite Hscan. cbn [bind fst snd].
        exists found, (existing' :: specs'). split; [reflexivity |]. split.
        -- constructor; assumption.
        -- constructor; assumption.
    + destruct (IH spec Hspec) as [found [specs' [Hscan [H2 Hp]]]].
      rewrite Hscan. cbn [bind fst snd].
      exists found, (existing :: specs'). split; [reflexivity |]. split.
      * constructor; [reflexivity | assumption].
      * constructor; assumption.
Qed.

Lemma plain_fresh (s : EnvSpec) :
  _inherit_from s = None -> _channels_and_packages_hash s = None -> plain s.
Proof.
  intros Hroot Hcache. split; [exact Hroot |]. intros h Hh.
  rewrite Hcache in Hh. discriminate Hh.
Qed.

Lemma _scan_project_specs_keeps_specs_witness :
  exists found specs',
    _scan_project_specs [tests_first_env; default_env] foo_env = Ok (found, specs')
    /\ Forall2 same_object specs' [tests_first_env; default_env]
    /\ Forall plain specs'.
Proof.
  apply (_scan_project_specs_keeps_specs [tests_first_env; default_env]).
  - repeat constructor; intros h Hh; discriminate Hh.
  - apply plain_fresh; reflexivity.
Defined.

Lemma Exists_Permutation {A : Type} (P : A -> Prop) (l l' : list A) :
  Permutation l l' -> Exists P l -> Exists P l'.
Proof.
  intros Hperm Hex. apply Exists_exists in Hex. destruct Hex as [x [Hin Hx]].
  apply Exists_exists. exists x. split; [| exact Hx].
  apply (Permutation_in x Hperm). exact Hin.
Qed.

Lemma Forall_Permutation {A : Type} (P : A -> Prop) (l l' : list A) :
  Permutation l l' -> Forall P l -> Forall P l'.
Proof.
  intros Hperm Hall. apply Forall_forall. intros x Hin.
  apply (proj1 (Forall_forall P l) Hall).
  apply (Permutation_in x (Permutation_sym Hperm)). exact Hin.
Qed.

(** With known specs that have no parent, the verdict does not depend on
    the order of the known specs: the check finds the loaded spec in sync
    for one order exactly when it does for any other. *)
Theorem _scan_project_specs_any_order (specs1 specs2 : list EnvSpec) (spec : EnvSpec) :
  Permutation specs1 specs2 ->
  Forall plain specs1 ->
  plain spec ->
  exists found1 found2 after1 after2,
    _scan_project_specs specs1 spec = Ok (found1, after1)
    /\ _scan_project_specs specs2 spec = Ok (found2, after2)
    /\ (found1 = None <-> found2 = None).
Proof.
  intros Hperm Hplain Hspec.
  pose proof (Forall_Permutation plain specs1 specs2 Hperm Hplain) as Hplain2.
  destruct (_scan_project_specs_plain specs1 Hplain spec Hspec)
    as [found1 [after1 [H1 [Hnone1 _]]]].
  destruct (_scan_project_specs_plain specs2 Hplain2 spec Hspec)
    as [found2 [after2 [H2 [Hnone2 _]]]].
  exists found1, found2, after1, after2. split; [exact H1 |]. split; [exact H2 |].
  rewrite Hnone1, Hnone2. split.
  - apply Exists_Permutation. exact Hperm.
  - apply Exists_Permutation. apply Permutation_sym. exact Hperm.
Qed.

Lemma _scan_project_specs_any_order_witness :
  exists found1 found2 after1 after2,
    _scan_project_specs [tests_first_env; default_env] default_env = Ok (found1, after1)
    /\ _scan_project_specs [default_env; tests_first_env] default_env = Ok (found2, after2)
    /\ (found1 = None <-> found2 = None).
Proof.
  apply _scan_project_specs_any_order.
  - apply perm_swap.
  - repeat constructor; intros h Hh; discriminate Hh.
  - apply plain_fresh; reflexivity.
Defined.

(** ** EnvSpec.path *)

(** [path.endswith('/')] *)
Fixpoint str_endswith_slash (s : string) : bool :=
  match s with
  | EmptyString => false
  | String c r =>
      match r with
      | EmptyString => Ascii.eqb c "/"
      | String _ _ => str_endswith_slash r
      end
  end.

(** One round of the loop of [os.path.join] of [posixpath]: a component
    that starts with a slash replaces the path; otherwise it is appended,
    after a slash unless the path is empty or ends with one. *)
Definition os_path_join_step (path b : string) : string :=
  if String.prefix "/" b then b
  else if String.eqb path "" || str_endswith_slash path then String.append path b
  else String.append path (String.append "/" b).

Definition os_path_join (a : string) (p : list string) : string :=
  fold_left os_path_join_step p a.

(** [EnvSpec.path]: [os.path.join(project_dir, "envs", self.name)], which
    raises [TypeError] on a name that is not a string. *)
Definition path (self : EnvSpec) (project_dir : string) : result string :=
  match name self with
  | PStr n => Ok (os_path_join project_dir ["envs"; n])
  | _ => Raise TypeError
  end.

Lemma append_assoc (x y z : string) :
  String.append (String.append x y) z = String.append x (String.append y z).
Proof. induction x as [| c x IH]; simpl; [reflexivity | rewrite IH; reflexivity]. Qed.

Lemma str_endswith_slash_append (x : string) (c : ascii) (y : string) :
  str_endswith_slash (String.append x (String c y)) = str_endswith_slash (String c y).
Proof.
  induction x as [| a x IH]; [reflexivity |].
  change (String.append (String a x) (String c y))
    with (String a (String.append x (String c y))).
  cbn [str_endswith_slash].
  destruct (String.append x (String c y)) eqn:E.
  - destruct x; discriminate E.
  - exact IH.
Qed.

Lemma str_contains_slash_append (x y : string) :
  str_contains "/" (String.append x (String "/" y)) = true.
Proof.
  induction x as [| a x IH].
  - change (String.append "" (String "/" y)) with (String "/" y).
    rewrite str_contains_slash_cons. reflexivity.
  - change (String.append (String a x) (String "/" y))
      with (String a (String.append x (String "/" y))).
    rewrite str_contains_slash_cons, IH. apply orb_true_r.
Qed.

(** The base name of a path that ends with a slash and a component is
    the component. *)
Lemma basename_append (x n : string) :
  str_contains "/" n = false ->
  basename (String.append x (String "/" n)) = n.
Proof.
  intros Hn. induction x as [| a x IH].
  - change (String.append "" (String "/" n)) with (String "/" n).
    cbn [basename]. rewrite Hn. reflexivity.
  - change (String.append (String a x) (String "/" n))
      with (String a (String.append x (String "/" n))).
    cbn [basename]. rewrite str_contains_slash_append. exact IH.
Qed.

Lemma os_path_join_envs (project_dir : string) :
  exists x, os_path_join_step project_dir "envs" = String.append x "envs".
Proof.
  unfold os_path_join_step. change (String.prefix "/" "envs") with false. cbv iota.
  destruct (String.eqb project_dir "" || str_endswith_slash project_dir).
  - exists project_dir. reflexivity.
  - exists (String.append project_dir "/"). rewrite append_assoc. reflexivity.
Qed.

(** The directory of a spec is named after the spec: for a name that is
    not empty and has no slash, [path] returns a path whose base name is
    the name, whatever the project directory; an [environment.yml] whose
    [prefix] is that path and which has no [name] loads to a spec of the
    same name. *)
Theorem path_basename_is_name (self : EnvSpec) (project_dir filename n : string) :
  name self = PStr n ->
  n <> "" ->
  str_contains "/" n = false ->
  exists p,
    path self project_dir = Ok p
    /\ basename p = n
    /\ exists spec,
         _load_parsed (PDict [("prefix", PStr p)]) filename = Ok spec
         /\ name spec = name self.
Proof.
  intros Hname Hn Hslash. unfold path. rewrite Hname.
  eexists. split; [reflexivity |].
  assert (Hbase : basename (os_path_join project_dir ["envs"; n]) = n).
  { unfold os_path_join. cbn [fold_left].
    destruct (os_path_join_envs project_dir) as [x ->].
    unfold os_path_join_step.
    destruct n as [| c r]; [congruence |].
    rewrite prefix_slash. rewrite str_contains_slash_cons in Hslash.
    apply orb_false_iff in Hslash. destruct Hslash as [Hc Hr]. rewrite Hc.
    rewrite str_endswith_slash_append. change (str_endswith_slash "envs") with false.
    assert (He : String.eqb (String.append x "envs") "" = false).
    { apply String.eqb_neq. destruct x; discriminate. }
    rewrite He. cbn [orb].
    apply basename_append. rewrite str_contains_slash_cons, Hc, Hr. reflexivity. }
  split; [exact Hbase |].
  pose proof (_load_parsed_mapping [("prefix", PStr (os_path_join project_dir ["envs"; n]))]
                filename) as Hm.
  rewrite _load_name_mapping in Hm. unfold name_from_prefix in Hm.
  cbn [dict_lookup String.eqb Ascii.eqb Bool.eqb] in Hm.
  rewrite Hbase in Hm.
  assert (Hne : String.eqb n "" = false) by (apply String.eqb_neq; exact Hn).
  assert (Hpath : truthy (PStr (os_path_join project_dir ["envs"; n])) = true).
  { cbn [truthy]. apply negb_true_iff. apply String.eqb_neq. intros E.
    rewrite E in Hbase. cbn [basename] in Hbase. congruence. }
  rewrite Hpath, Hne in Hm.
  destruct Hm as [spec [Hspec [Hn' _]]]. exists spec. split; [exact Hspec | exact Hn'].
Qed.

Lemma path_basename_is_name_witness :
  exists p,
    path default_env "/home/me/project" = Ok p
    /\ basename p = "default"
    /\ exists spec,
         _load_parsed (PDict [("prefix", PStr p)]) "environment.yml" = Ok spec
         /\ name spec = name default_env.
Proof.
  apply (path_basename_is_name default_env "/home/me/project" "environment.yml" "default").
  - reflexivity.
  - discriminate.
  - reflexivity.
Defined.

Example path_of_default_env :
  path default_env "/home/me/project" = Ok "/home/me/project/envs/default".
Proof. reflexivity. Qed.

(** A name that starts with a slash takes the place of the whole path:
    [path] returns the name itself and the project directory is lost. *)
Theorem path_of_absolute_name (self : EnvSpec) (project_dir n : string) :
  name self = PStr (String "/" n) ->
  path self project_dir = Ok (String "/" n).
Proof.
  intros Hname. unfold path, os_path_join. rewrite Hname. cbn [fold_left].
  unfold os_path_join_step at 1. rewrite prefix_slash. reflexivity.
Qed.

Lemma path_of_absolute_name_witness :
  path (Build_EnvSpec (PStr "/tmp/x") [] [] [] PNone None PNone None) "/home/me/project"
  = Ok "/tmp/x".
Proof.
  apply (path_of_absolute_name
           (Build_EnvSpec (PStr "/tmp/x") [] [] [] PNone None PNone None)
           "/home/me/project" "tmp/x").
  reflexivity.
Defined.

(** ** conda_package_names_set and pip_package_names_set *)

Section names_set.

(** [conda_api.parse_spec(spec).name], or [pip_api.parse_spec(spec).name]:
    the name of a package spec, or the exception raised on a spec that
    cannot be parsed. *)
Variable parse_spec_name : string -> result string.

(** The loop [for spec in ...: names.add(parse_spec(spec).name)]. *)
Fixpoint _names_loop (specs : list string) (names : set string) : result (set string) :=
  match specs with
  | [] => Ok names
  | spec :: rest =>
      n <- parse_spec_name spec ;;
      _names_loop rest (set_add string_dec n names)
  end.

Definition conda_package_names_set (self : EnvSpec) : result (set string) :=
  packages <- conda_packages self ;;
  _names_loop (items packages) (empty_set string).

Definition pip_package_names_set (self : EnvSpec) : result (set string) :=
  packages <- pip_packages self ;;
  _names_loop (items packages) (empty_set string).

Lemma _names_loop_parsed (specs : list string) :
  (forall spec, In spec specs -> exists n, parse_spec_name spec = Ok n) ->
  forall names0, NoDup names0 ->
  exists names,
    _names_loop specs names0 = Ok names
    /\ NoDup names
    /\ (forall n, In n names
                  <-> In n names0 \/ exists spec, In spec specs /\ parse_spec_name spec = Ok n).
Proof.
  induction specs as [| spec rest IH]; intros Hparse names0 Hnodup.
  - exists names0. split; [reflexivity |]. split; [exact Hnodup |].
    intros n. split; [intros H; left; exact H |].
    intros [H | [spec [[] _]]]. exact H.
  - destruct (Hparse spec (or_introl eq_refl)) as [n0 Hn0].
    cbn [_names_loop]. rewrite Hn0. cbn [bind].
    destruct (IH (fun s Hs => Hparse s (or_intror Hs))
                 (set_add string_dec n0 names0)
                 (set_add_nodup string_dec n0 Hnodup))
      as [names [Hloop [Hnd Hin]]].
    exists names. split; [exact Hloop |]. split; [exact Hnd |].
    intros n. rewrite Hin. split.
    + intros [H | [s [Hs Hp]]].
      * apply set_add_elim in H. destruct H as [-> | H].
        -- right. exists spec. split; [left; reflexivity | exact Hn0].
        -- left. exact H.
      * right. exists s. split; [right; exact Hs | exact Hp].
    + intros [H | [s [[<- | Hs] Hp]]].
      * left. apply set_add_intro1. exact H.
      * left. apply set_add_intro2. congruence.
      * right. exists s. split; assumption.
Qed.

Lemma _names_loop_failure (good rest : list string) (bad : string) (e : exn) :
  (forall spec, In spec good -> exists n, parse_spec_name spec = Ok n) ->
  parse_spec_name bad = Raise e ->
  forall names0, _names_loop (good ++ bad :: rest) names0 = Raise e.
Proof.
  intros Hgood Hbad. induction good as [| spec good IH]; intros names0.
  - cbn [app _names_loop]. rewrite Hbad. reflexivity.
  - destruct (Hgood spec (or_introl eq_refl)) as [n Hn].
    cbn [app _names_loop]. rewrite Hn. cbn [bind].
    apply IH. intros s Hs. apply Hgood. right. exact Hs.
Qed.

End names_set.

(** For a spec without a parent whose package specs all parse, the two
    sets hold the parsed names of the own conda packages and of the own
    pip packages: every name once, and no other name. *)
Theorem package_names_sets (conda_name pip_name : string -> result string) (self : EnvSpec) :
  _inherit_from self = None ->
  (forall spec, In spec (_conda_packages self) -> exists n, conda_name spec = Ok n) ->
  (forall spec, In spec (_pip_packages self) -> exists n, pip_name spec = Ok n) ->
  (exists names,
      conda_package_names_set conda_name self = Ok names
      /\ NoDup names
      /\ forall n, In n names
                   <-> exists spec, In spec (_conda_packages self) /\ conda_name spec = Ok n)
  /\ (exists names,
         pip_package_names_set pip_name self = Ok names
         /\ NoDup names
         /\ forall n, In n names
                      <-> exists spec, In spec (_pip_packages self) /\ pip_name spec = Ok n).
Proof.
  intros Hroot Hconda Hpip.
  unfold conda_package_names_set, pip_package_names_set, conda_packages, pip_packages.
  rewrite !(_get_inherited_no_parent _ self Hroot). cbn [bind private_attr items].
  split.
  - destruct (_names_loop_parsed conda_name (_conda_packages self) Hconda
                (empty_set string) (NoDup_nil string)) as [names [H [Hnd Hin]]].
    exists names. split; [exact H |]. split; [exact Hnd |].
    intros n. rewrite Hin. split; [intros [[] | H'] | intros H'; right]; exact H'.
  - destruct (_names_loop_parsed pip_name (_pip_packages self) Hpip
                (empty_set string) (NoDup_nil string)) as [names [H [Hnd Hin]]].
    exists names. split; [exact H |]. split; [exact Hnd |].
    intros n. rewrite Hin. split; [intros [[] | H'] | intros H'; right]; exact H'.
Qed.

(** A parser of specs of the form [name=version], for the examples: the
    name is what comes before the first [=], and a spec that starts with
    [=] has no name. *)
Fixpoint before_equals (spec : string) : string :=
  match spec with
  | EmptyString => EmptyString
  | String c r => if Ascii.eqb c "=" then EmptyString else String c (before_equals r)
  end.

Definition name_before_equals (spec : string) : result string :=
  match before_equals spec with
  | EmptyString => Raise ValueError
  | n => Ok n
  end.

Definition pinned_env : EnvSpec :=
  Build_EnvSpec (PStr "pinned") ["numpy=1.11"; "pandas"; "numpy=1.12"] ["defaults"]
    ["flask=0.11"] PNone None PNone None.

Lemma package_names_sets_witness :
  (exists names,
      conda_package_names_set name_before_equals pinned_env = Ok names
      /\ NoDup names
      /\ forall n, In n names
                   <-> exists spec, In spec (_conda_packages pinned_env)
                                    /\ name_before_equals spec = Ok n)
  /\ (exists names,
         pip_package_names_set name_before_equals pinned_env = Ok names
         /\ NoDup names
         /\ forall n, In n names
                      <-> exists spec, In spec (_pip_packages pinned_env)
                                       /\ name_before_equals spec = Ok n).
Proof.
  apply (package_names_sets name_before_equals name_before_equals pinned_env).
  - reflexivity.
  - intros spec [<- | [<- | [<- | []]]]; eexists; reflexivity.
  - intros spec [<- | []]. eexists. reflexivity.
Defined.

Example pinned_env_names :
  conda_package_names_set name_before_equals pinned_env = Ok ["numpy"; "pandas"].
Proof. reflexivity. Qed.

(** A package spec that does not parse stops the set: the exception of
    the first such spec is raised, whatever follows it. *)
Theorem conda_package_names_set_failure
    (conda_name : string -> result string) (self : EnvSpec)
    (good rest : list string) (bad : string) (e : exn) :
  _inherit_from self = None ->
  _conda_packages self = good ++ bad :: rest ->
  (forall spec, In spec good -> exists n, conda_name spec = Ok n) ->
  conda_name bad = Raise e ->
  conda_package_names_set conda_name self = Raise e.
Proof.
  intros Hroot Hlist Hgood Hbad. unfold conda_package_names_set, conda_packages.
  rewrite (_get_inherited_no_parent _ self Hroot). cbn [bind private_attr items].
  rewrite Hlist. apply _names_loop_failure; assumption.
Qed.

Lemma conda_package_names_set_failure_witness :
  conda_package_names_set name_before_equals
    (Build_EnvSpec (PStr "bad") ["numpy"; "=1.0"; "pandas"] [] [] PNone None PNone None)
  = Raise ValueError.
Proof.
  apply (conda_package_names_set_failure name_before_equals
           (Build_EnvSpec (PStr "bad") ["numpy"; "=1.0"; "pandas"] [] [] PNone None PNone None)
           ["numpy"] ["pandas"] "=1.0" ValueError).
  - reflexivity.
  - reflexivity.
  - intros spec [<- | []]. eexists. reflexivity.
  - reflexivity.
Defined.

(** ** The form of the hash *)

Definition is_hex_digit (c : ascii) : bool :=
  let n := Ascii.nat_of_ascii c in
  (Nat.leb 48 n && Nat.leb n 57) || (Nat.leb 97 n && Nat.leb n 102).

Fixpoint all_hex_digits (s : string) : bool :=
  match s with
  | EmptyString => true
  | String c r => is_hex_digit c && all_hex_digits r
  end.

Lemma be_bytes_length (n : nat) (x : Z) : List.length (hashlib.be_bytes n x) = n.
Proof. induction n as [| n IH]; simpl; [reflexivity | rewrite IH; reflexivity]. Qed.

Lemma be_bytes_range (n : nat) (x : Z) :
  Forall (fun b => (0 <= b < 256)%Z) (hashlib.be_bytes n x).
Proof.
  induction n as [| n IH]; simpl; constructor; [| exact IH].
  change 255%Z with (Z.ones 8). rewrite Z.land_ones by lia.
  apply Z.mod_pos_bound. reflexivity.
Qed.

Lemma hex_digit_is_hex (x : Z) :
  (0 <= x < 16)%Z -> is_hex_digit (hashlib.hex_digit x) = true.
Proof.
  intros Hx.
  assert (H : (x = 0 \/ x = 1 \/ x = 2 \/ x = 3 \/ x = 4 \/ x = 5 \/ x = 6 \/ x = 7
               \/ x = 8 \/ x = 9 \/ x = 10 \/ x = 11 \/ x = 12 \/ x = 13 \/ x = 14
               \/ x = 15)%Z) by lia.
  repeat (destruct H as [-> | H]; [reflexivity |]). subst x. reflexivity.
Qed.

Lemma hex_form (bs : list Z) :
  Forall (fun b => (0 <= b < 256)%Z) bs ->
  String.length (hashlib.hex bs) = 2 * List.length bs
  /\ all_hex_digits (hashlib.hex bs) = true.
Proof.
  induction 1 as [| b bs Hb Hbs [IHlen IHhex]]; [split; reflexivity |].
  cbn [hashlib.hex String.length List.length all_hex_digits]. split.
  - rewrite IHlen. lia.
  - rewrite IHhex, !hex_digit_is_hex; [reflexivity | |].
    + change 15%Z with (Z.ones 4). rewrite Z.land_ones by lia.
      apply Z.mod_pos_bound. reflexivity.
    + rewrite Z.shiftr_div_pow2 by lia. change (2 ^ 4)%Z with 16%Z.
      split; [apply Z.div_pos; lia | apply Z.div_lt_upper_bound; lia].
Qed.

Lemma sha1_hex_form (message : list byte) :
  String.length (sha1_hex message) = 40 /\ all_hex_digits (sha1_hex message) = true.
Proof.
  unfold sha1_hex, hashlib.sha1_digest.
  destruct (hashlib.blocks _ _ _) as [[[[h0 h1] h2] h3] h4].
  destruct (hex_form (hashlib.be_bytes 4 h0 ++ hashlib.be_bytes 4 h1
                      ++ hashlib.be_bytes 4 h2 ++ hashlib.be_bytes 4 h3
                      ++ hashlib.be_bytes 4 h4)) as [Hlen Hhex].
  { repeat (apply Forall_app; split; try apply be_bytes_range). }
  split; [| exact Hhex].
  rewrite Hlen, !length_app, !be_bytes_length. reflexivity.
Qed.

(** The hash of a spec without a parent is a string of forty lowercase
    hexadecimal digits, whatever the spec holds. *)
Theorem channels_and_packages_hash_form (s : EnvSpec) :
  plain s ->
  exists h s',
    channels_and_packages_hash s = Ok (h, s')
    /\ String.length h = 40
    /\ all_hex_digits h = true.
Proof.
  intros Hplain.
  destruct (channels_and_packages_hash_plain s Hplain) as [s' [Hs _]].
  exists (digest_of s), s'. split; [exact Hs |]. apply sha1_hex_form.
Qed.

Lemma channels_and_packages_hash_form_witness :
  exists h s',
    channels_and_packages_hash foo_env = Ok (h, s')
    /\ String.length h = 40
    /\ all_hex_digits h = true.
Proof.
  apply (channels_and_packages_hash_form foo_env). apply plain_fresh; reflexivity.
Defined.
